(** * Claude API Server (claude_api.py): a shallow embedding and its properties

    The server wraps the [claude] command-line tool behind four HTTP
    operations.  This development embeds the request lifecycle of
    [src/claude_api.py] -- request validation, prompt assembly, subprocess
    execution with its three outcomes, the request-id middleware and the
    framework's exception handling -- and proves the behaviour of each
    operation.

    Conventions.
    - A Python [str] is a list of Unicode code points ([pystr]); [bytes] is a
      list of [Byte.byte].
    - Effects are explicit: a computation reads the [World] (what the external
      executable does for a given argument vector), appends to a trace of
      [event]s and either returns or raises.
    - Real time is abstracted: whether the child finishes before
      [asyncio.wait_for] gives up is part of the [World].
    - The framework is modelled as far as the file relies on it: a body
      parameter declared with a model is validated before the handler runs
      (pydantic 2: a [str] field takes a JSON string only); an
      [HTTPException] and a validation error are turned into responses
      inside the middleware; any other exception passes through
      [call_next] and is answered by the outermost layer.
    - What a handler returns is rendered by the default response class,
      [ORJSONResponse], which refuses integers beyond 64 bits and strings
      with surrogates; the two exception handlers use the standard JSON
      response.
    - The optional CORS layer (added when [ENABLE_CORS] is set) sits inside
      [add_request_id] and changes neither status, body nor the request-id
      header; it is left out. *)

From Stdlib Require Import List ZArith NArith Lia Bool String Ascii.
From Stdlib Require Import DecimalString.
From Stdlib Require DecimalPos DecimalZ.
From Stdlib Require Strings.Byte.
Import ListNotations.

#[local] Set Warnings "-register-all".

Local Open Scope N_scope.
Local Open Scope list_scope.

(* ================================================================== *)
(** * Python strings *)
(* ================================================================== *)

Module PyStr.

(** A code point; a [str] is a sequence of them. *)
Definition codepoint := N.
Definition pystr := list codepoint.

(** String literals of the source, written as Rocq strings. *)
Definition py (s : string) : pystr :=
  map N_of_ascii (list_ascii_of_string s).

(** ["\n"] *)
Definition NL : pystr := [10].

Definition eqb (a b : pystr) : bool :=
  if list_eq_dec N.eq_dec a b then true else false.

(** [bool(s)]: a string is truthy when it is not empty. *)
Definition truthy (s : pystr) : bool :=
  match s with [] => false | _ :: _ => true end.

(** [a or b] on strings. *)
Definition py_or (a b : pystr) : pystr := if truthy a then a else b.

(** [str(n)] for an [int]. *)
Definition str_of_int (n : Z) : pystr := py (NilZero.string_of_int (Z.to_int n)).

(** [len(s)] *)
Definition len (s : pystr) : Z := Z.of_nat (List.length s).

(** [sep.join(parts)] *)
Fixpoint join (sep : pystr) (parts : list pystr) : pystr :=
  match parts with
  | [] => []
  | [p] => p
  | p :: rest => p ++ sep ++ join sep rest
  end.

(** ** [str.isspace] on one character and [str.strip()]

    The code points for which CPython's [_PyUnicode_IsWhitespace] answers
    true. *)
Definition isspace (c : codepoint) : bool :=
  ((9 <=? c) && (c <=? 13))
  || ((28 <=? c) && (c <=? 32))
  || (c =? 133) || (c =? 160) || (c =? 5760)
  || ((8192 <=? c) && (c <=? 8202))
  || (c =? 8232) || (c =? 8233) || (c =? 8239) || (c =? 8287)
  || (c =? 12288).

Fixpoint lstrip (s : pystr) : pystr :=
  match s with
  | [] => []
  | c :: rest => if isspace c then lstrip rest else s
  end.

Definition rstrip (s : pystr) : pystr := rev (lstrip (rev s)).

Definition strip (s : pystr) : pystr := rstrip (lstrip s).

(** ** [str.capitalize()]

    CPython's [do_capitalize] maps the first character with
    [_PyUnicode_ToTitleFull] and every later one with [lower_ucs4]; both may
    give up to three code points, and the lower-casing of a capital sigma
    looks at its neighbours.  On ASCII the two mappings are the usual
    letter-case changes, written out here; beyond ASCII they are the Unicode
    character database's, taken as the parameters [ucd_title] and
    [ucd_lower]. *)

Definition ascii_upper (c : codepoint) : codepoint :=
  if (97 <=? c) && (c <=? 122) then c - 32 else c.

Definition ascii_lower (c : codepoint) : codepoint :=
  if (65 <=? c) && (c <=? 90) then c + 32 else c.

Definition is_ascii (c : codepoint) : bool := c <? 128.

(** The two case mappings of the Unicode character database that
    [capitalize] consults: [_PyUnicode_ToTitleFull c], and
    [lower_ucs4 data length i c] (the string, the index and the character at
    that index). *)
Record UnicodeData := {
  ucd_title : codepoint -> list codepoint;
  ucd_lower : pystr -> nat -> codepoint -> list codepoint
}.

Section Capitalize.
Variable ucd : UnicodeData.

Definition to_title_full (c : codepoint) : list codepoint :=
  if is_ascii c then [ascii_upper c] else ucd_title ucd c.

Definition lower_ucs4 (s : pystr) (i : nat) (c : codepoint) : list codepoint :=
  if is_ascii c then [ascii_lower c] else ucd_lower ucd s i c.

(** The loop [for (i = 1; i < length; i++)] of [do_capitalize], over the
    characters from index [i] on. *)
Fixpoint lower_from (s : pystr) (i : nat) (rest : pystr) : pystr :=
  match rest with
  | [] => []
  | c :: rest' => lower_ucs4 s i c ++ lower_from s (S i) rest'
  end.

Definition capitalize (s : pystr) : pystr :=
  match s with
  | [] => []
  | c :: rest => to_title_full c ++ lower_from s 1 rest
  end.
End Capitalize.

(** ** [bytes] and [bytes.decode()]

    [decode()] is UTF-8 with [errors="strict"]: it accepts exactly the
    well-formed byte sequences (no overlong form, no surrogate, nothing above
    U+10FFFF, no truncated sequence) and raises [UnicodeDecodeError] on
    anything else; [None] stands for the raise. *)

Definition bytes := list Byte.byte.

Definition in_range (lo hi b : N) : bool := (lo <=? b) && (b <=? hi).

(** A continuation byte, 0x80..0xBF. *)
Definition is_cont (b : N) : bool := in_range 128 191 b.

(** The second byte allowed after a three-byte lead. *)
Definition second_of_3 (b0 b1 : N) : bool :=
  if b0 =? 224 then in_range 160 191 b1
  else if b0 =? 237 then in_range 128 159 b1
  else is_cont b1.

(** The second byte allowed after a four-byte lead. *)
Definition second_of_4 (b0 b1 : N) : bool :=
  if b0 =? 240 then in_range 144 191 b1
  else if b0 =? 244 then in_range 128 143 b1
  else is_cont b1.

Fixpoint utf8_decode (bs : list N) : option pystr :=
  match bs with
  | [] => Some []
  | b0 :: r0 =>
      if b0 <? 128 then option_map (cons b0) (utf8_decode r0)
      else if in_range 194 223 b0 then
        match r0 with
        | b1 :: r1 =>
            if is_cont b1
            then option_map (cons ((b0 - 192) * 64 + (b1 - 128))) (utf8_decode r1)
            else None
        | _ => None
        end
      else if in_range 224 239 b0 then
        match r0 with
        | b1 :: b2 :: r2 =>
            if second_of_3 b0 b1 && is_cont b2
            then option_map
                   (cons ((b0 - 224) * 4096 + (b1 - 128) * 64 + (b2 - 128)))
                   (utf8_decode r2)
            else None
        | _ => None
        end
      else if in_range 240 244 b0 then
        match r0 with
        | b1 :: b2 :: b3 :: r3 =>
            if second_of_4 b0 b1 && is_cont b2 && is_cont b3
            then option_map
                   (cons ((b0 - 240) * 262144 + (b1 - 128) * 4096
                          + (b2 - 128) * 64 + (b3 - 128)))
                   (utf8_decode r3)
            else None
        | _ => None
        end
      else None
  end.

Definition decode (b : bytes) : option pystr :=
  utf8_decode (map Byte.to_N b).

(** ** [str.encode()]

    UTF-8 again, the way a [str] argument reaches a child process and the
    way a tool that repeats its argument writes it.  Only Unicode scalar
    values have an encoding; [None] stands for the raise on a surrogate or
    on a value beyond U+10FFFF. *)

Definition is_scalar (c : codepoint) : bool :=
  (c <? 55296) || ((57343 <? c) && (c <? 1114112)).

Definition utf8_encode_char (c : codepoint) : list N :=
  if c <? 128 then [c]
  else if c <? 2048 then [192 + c / 64; 128 + c mod 64]
  else if c <? 65536 then
    [224 + c / 4096; 128 + (c / 64) mod 64; 128 + c mod 64]
  else
    [240 + c / 262144; 128 + (c / 4096) mod 64; 128 + (c / 64) mod 64;
     128 + c mod 64].

Definition utf8_encode (s : pystr) : list N := flat_map utf8_encode_char s.

Definition byte_of_N (n : N) : Byte.byte :=
  match Byte.of_N n with
  | Some b => b
  | None => Byte.x00
  end.

Definition encode (s : pystr) : option bytes :=
  if forallb is_scalar s then Some (map byte_of_N (utf8_encode s)) else None.

(** Bytes literals of the examples. *)
Definition b_lit (s : string) : bytes := list_byte_of_string s.

End PyStr.
Import PyStr.

(** Literals and the string primitives stay folded under [simpl]. *)
Arguments py : simpl never.
Arguments str_of_int : simpl never.
Arguments strip : simpl never.
Arguments decode : simpl never.
Arguments capitalize : simpl never.

(* ================================================================== *)
(** * JSON values, request models and their validation *)
(* ================================================================== *)

Module Json.

(** A parsed JSON value, as [json.loads] gives it and as a handler's returned
    [dict] is serialised.  Every check below only asks whether a value is a
    string, a list or a dict, so one constructor stands for all numbers. *)
Inductive json :=
| JNull
| JBool (b : bool)
| JNumber (n : Z)
| JStr (s : pystr)
| JList (items : list json)
| JDict (members : list (pystr * json)).

(** [d.get(k)] on the members in document order: a later member overrides an
    earlier one of the same key. *)
Fixpoint dict_get (k : pystr) (members : list (pystr * json)) : option json :=
  match members with
  | [] => None
  | (k', v) :: rest =>
      match dict_get k rest with
      | Some v' => Some v'
      | None => if PyStr.eqb k k' then Some v else None
      end
  end.

End Json.
Import Json.

Module Models.

(** [class AskRequest(BaseModel): prompt: str] *)
Record AskRequest := { prompt : pystr }.

(** [class Message(BaseModel): role: str = "user"; content: str] *)
Record Message := { role : pystr; content : pystr }.

(** [class ChatRequest(BaseModel): messages: list[Message]; system: str = ""] *)
Record ChatRequest := { messages : list Message; system : pystr }.

(** What the client sent as the body. *)
Inductive raw_body :=
| NoBody
| InvalidJson
| Body (j : json).

(** One entry of a validation error: where, and what was wrong. *)
Inductive loc_item := Key (k : pystr) | Index (i : nat).

Inductive error_type :=
| missing                  (* a required field is absent *)
| string_type              (* a [str] field holds something else *)
| list_type                (* a [list] field holds something else *)
| model_attributes_type    (* a model was expected, not a dict *)
| json_invalid.            (* the body is not JSON *)

Record verror := { etype : error_type; loc : list loc_item }.

Inductive vresult (A : Type) :=
| Valid (a : A)
| Invalid (errors : list verror).
Arguments Valid {A} a.
Arguments Invalid {A} errors.

(** Two fields validated side by side: the errors of both are reported. *)
Definition both {A B} (a : vresult A) (b : vresult B) : vresult (A * B) :=
  match a, b with
  | Valid x, Valid y => Valid (x, y)
  | Invalid e, Valid _ => Invalid e
  | Valid _, Invalid e => Invalid e
  | Invalid e1, Invalid e2 => Invalid (e1 ++ e2)
  end.

Definition vmap {A B} (f : A -> B) (a : vresult A) : vresult B :=
  match a with
  | Valid x => Valid (f x)
  | Invalid e => Invalid e
  end.

(** A field of type [str]. *)
Definition validate_str (at_ : list loc_item) (v : json) : vresult pystr :=
  match v with
  | JStr s => Valid s
  | _ => Invalid [{| etype := string_type; loc := at_ |}]
  end.

(** A required field: absent is an error. *)
Definition required {A} (at_ : list loc_item) (name : pystr)
    (validate : list loc_item -> json -> vresult A)
    (members : list (pystr * json)) : vresult A :=
  match dict_get name members with
  | None => Invalid [{| etype := missing; loc := at_ ++ [Key name] |}]
  | Some v => validate (at_ ++ [Key name]) v
  end.

(** A field with a default: absent gives the default. *)
Definition with_default {A} (at_ : list loc_item) (name : pystr) (default : A)
    (validate : list loc_item -> json -> vresult A)
    (members : list (pystr * json)) : vresult A :=
  match dict_get name members with
  | None => Valid default
  | Some v => validate (at_ ++ [Key name]) v
  end.

Definition validate_AskRequest (at_ : list loc_item) (v : json)
  : vresult AskRequest :=
  match v with
  | JDict members =>
      vmap (fun p => {| prompt := p |})
           (required at_ (py "prompt") validate_str members)
  | _ => Invalid [{| etype := model_attributes_type; loc := at_ |}]
  end.

Definition validate_Message (at_ : list loc_item) (v : json)
  : vresult Message :=
  match v with
  | JDict members =>
      vmap (fun rc => {| role := fst rc; content := snd rc |})
           (both (with_default at_ (py "role") (py "user") validate_str members)
                 (required at_ (py "content") validate_str members))
  | _ => Invalid [{| etype := model_attributes_type; loc := at_ |}]
  end.

(** The items of a [list[Message]], each at its index. *)
Fixpoint validate_items (at_ : list loc_item) (i : nat) (items : list json)
  : vresult (list Message) :=
  match items with
  | [] => Valid []
  | v :: rest =>
      vmap (fun p => fst p :: snd p)
           (both (validate_Message (at_ ++ [Index i]) v)
                 (validate_items at_ (S i) rest))
  end.

Definition validate_messages (at_ : list loc_item) (v : json)
  : vresult (list Message) :=
  match v with
  | JList items => validate_items at_ 0 items
  | _ => Invalid [{| etype := list_type; loc := at_ |}]
  end.

Definition validate_ChatRequest (at_ : list loc_item) (v : json)
  : vresult ChatRequest :=
  match v with
  | JDict members =>
      vmap (fun ms => {| messages := fst ms; system := snd ms |})
           (both (required at_ (py "messages") validate_messages members)
                 (with_default at_ (py "system") [] validate_str members))
  | _ => Invalid [{| etype := model_attributes_type; loc := at_ |}]
  end.

(** The framework's reading of a body parameter declared with a model. *)
Definition validate_body {A} (validate : list loc_item -> json -> vresult A)
    (b : raw_body) : vresult A :=
  match b with
  | NoBody => Invalid [{| etype := missing; loc := [Key (py "body")] |}]
  | InvalidJson => Invalid [{| etype := json_invalid; loc := [Key (py "body")] |}]
  | Body j => validate [Key (py "body")] j
  end.

End Models.
Import Models.

(* ================================================================== *)
(** * Effects: the outside world, the trace and exceptions *)
(* ================================================================== *)

Module Effects.

(** Why [asyncio.create_subprocess_exec] can fail to start the tool. *)
Inductive spawn_error := FileNotFoundError | PermissionError.

(** What the external executable does for one argument vector.  [Hangs]: it
    is still running when [asyncio.wait_for] gives up. *)
Inductive proc_behaviour :=
| SpawnFails (e : spawn_error)
| Hangs
| Exits (returncode : Z) (stdout stderr : bytes).

Definition World := list pystr -> proc_behaviour.

Inductive exn :=
| HTTPException (status_code : Z) (detail : json)
| RequestValidationError (errors : list verror)
| OSError (e : spawn_error)
| UnicodeDecodeError
| TimeoutError
| TypeError.

Inductive log_level := DEBUG | INFO | ERROR.

Inductive event :=
| Log (level : log_level) (msg : pystr)     (* logger.debug/info/error *)
| Exec (argv : list pystr)                  (* asyncio.create_subprocess_exec *)
| Kill (argv : list pystr).                 (* proc.kill() *)

Inductive outcome (A : Type) :=
| Return (a : A)
| Raise (e : exn).
Arguments Return {A} a.
Arguments Raise {A} e.

(** A computation: reads the world, logs what it did, returns or raises. *)
Definition M (A : Type) : Type := World -> list event * outcome A.

Definition ret {A} (a : A) : M A := fun _ => ([], Return a).

Definition raise {A} (e : exn) : M A := fun _ => ([], Raise e).

Definition emit (e : event) : M unit := fun _ => ([e], Return tt).

Definition bind {A B} (m : M A) (k : A -> M B) : M B :=
  fun w =>
    match m w with
    | (t1, Return a) => let (t2, r) := k a w in (t1 ++ t2, r)
    | (t1, Raise e) => (t1, Raise e)
    end.

(** [try: m  except <the exceptions h handles>: h e] *)
Definition try_except {A} (m : M A) (h : exn -> option (M A)) : M A :=
  fun w =>
    match m w with
    | (t1, Return a) => (t1, Return a)
    | (t1, Raise e) =>
        match h e with
        | Some k => let (t2, r) := k w in (t1 ++ t2, r)
        | None => (t1, Raise e)
        end
    end.

Declare Scope m_scope.
Delimit Scope m_scope with M.
Notation "x <- m ;; k" := (bind m (fun x => k))
  (at level 61, m at next level, right associativity) : m_scope.
Notation "m ;; k" := (bind m (fun _ => k))
  (at level 61, right associativity) : m_scope.

(** A started child process: its argument vector, and what [communicate()]
    will deliver with the exit status, if it finishes in time. *)
Record Process := {
  proc_argv : list pystr;
  proc_result : option (Z * bytes * bytes)
}.

Definition create_subprocess_exec (argv : list pystr) : M Process :=
  fun w =>
    match w argv with
    | SpawnFails e => ([Exec argv], Raise (OSError e))
    | Hangs => ([Exec argv], Return {| proc_argv := argv; proc_result := None |})
    | Exits rc out err =>
        ([Exec argv],
         Return {| proc_argv := argv; proc_result := Some (rc, out, err) |})
    end.

(** [await asyncio.wait_for(proc.communicate(), timeout=...)], together with
    the [proc.returncode] that is set once [communicate()] has returned. *)
Definition wait_for_communicate (proc : Process) (timeout : Z)
  : M (Z * bytes * bytes) :=
  match proc_result proc with
  | Some r => ret r
  | None => raise TimeoutError
  end.

Definition kill (proc : Process) : M unit := emit (Kill (proc_argv proc)).

Definition log (level : log_level) (parts : list pystr) : M unit :=
  emit (Log level (List.concat parts)).

(** [bytes.decode()] as a computation. *)
Definition decode_or_raise (b : bytes) : M pystr :=
  match decode b with
  | Some s => ret s
  | None => raise UnicodeDecodeError
  end.

End Effects.
Import Effects.
Local Open Scope m_scope.

(* ================================================================== *)
(** * HTTP requests and responses *)
(* ================================================================== *)

Module Http.

(** The four operations the application registers, with the body sent. *)
Inductive operation :=
| PostAsk (b : raw_body)      (* POST /ask *)
| PostChat (b : raw_body)     (* POST /chat *)
| GetHealth                   (* GET /health *)
| GetVersion.                 (* GET /version *)

(** The part of a [Request] the code reads: method, path and
    [request.state.request_id] (absent until the middleware sets it). *)
Record Request := {
  method : pystr;
  path : pystr;
  state_request_id : option pystr
}.

(** [getattr(request.state, "request_id", default)] *)
Definition getattr_request_id (request : Request) (default : pystr) : pystr :=
  match state_request_id request with
  | Some r => r
  | None => default
  end.

Definition request_of (op : operation) : Request :=
  match op with
  | PostAsk _ => {| method := py "POST"; path := py "/ask"; state_request_id := None |}
  | PostChat _ => {| method := py "POST"; path := py "/chat"; state_request_id := None |}
  | GetHealth => {| method := py "GET"; path := py "/health"; state_request_id := None |}
  | GetVersion => {| method := py "GET"; path := py "/version"; state_request_id := None |}
  end.

(** [request.state.request_id = request_id] *)
Definition set_state_request_id (request : Request) (request_id : pystr) : Request :=
  {| method := method request; path := path request;
     state_request_id := Some request_id |}.

(** What a response carries as its body: a JSON document, the error list of
    a rejected request (sent as [{"detail": errors}]) or plain text. *)
Inductive payload :=
| JsonContent (j : json)
| ValidationContent (errors : list verror)
| TextContent (s : pystr).

(** Headers are kept as the framework keeps them: a list of pairs whose names
    are lower-cased.  The content length, which depends on the serialised
    body, is not tracked. *)
Record Response := {
  status_code : Z;
  headers : list (pystr * pystr);
  body : payload
}.

Definition header_name (k : pystr) : pystr := map ascii_lower k.

(** [headers[k] = v]: the first entry of that name is replaced and later ones
    are dropped; without one, the entry is appended. *)
Fixpoint set_item (k v : pystr) (hs : list (pystr * pystr)) : list (pystr * pystr) :=
  match hs with
  | [] => [(k, v)]
  | (k', v') :: rest =>
      if PyStr.eqb k' k
      then (k, v) :: filter (fun kv => negb (PyStr.eqb (fst kv) k)) rest
      else (k', v') :: set_item k v rest
  end.

(** [headers.get(k)] *)
Fixpoint get_item (k : pystr) (hs : list (pystr * pystr)) : option pystr :=
  match hs with
  | [] => None
  | (k', v') :: rest => if PyStr.eqb k' k then Some v' else get_item k rest
  end.

Definition set_header (r : Response) (k v : pystr) : Response :=
  {| status_code := status_code r;
     headers := set_item (header_name k) v (headers r);
     body := body r |}.

Definition get_header (r : Response) (k : pystr) : option pystr :=
  get_item (header_name k) (headers r).

Definition json_response (status : Z) (j : json) : Response :=
  {| status_code := status;
     headers := [(py "content-type", py "application/json")];
     body := JsonContent j |}.

Definition validation_response (errors : list verror) : Response :=
  {| status_code := 422;
     headers := [(py "content-type", py "application/json")];
     body := ValidationContent errors |}.

Definition plain_response (status : Z) (s : pystr) : Response :=
  {| status_code := status;
     headers := [(py "content-type", py "text/plain; charset=utf-8")];
     body := TextContent s |}.

End Http.
Import Http.

(* ================================================================== *)
(** * The server: claude_api.py *)
(* ================================================================== *)

Module ClaudeApi.

(** [__version__] *)
Definition __version__ : pystr := py "1.0.0".

(** The configuration read from the environment when the module is loaded. *)
Record Config := {
  HOST : pystr;
  PORT : Z;
  TIMEOUT : Z;
  ENABLE_CORS : bool;
  LOG_LEVEL : pystr
}.

(** The values the source falls back to when the variables are unset. *)
Definition default_config : Config :=
  {| HOST := py "127.0.0.1"; PORT := 5051; TIMEOUT := 120;
     ENABLE_CORS := false; LOG_LEVEL := py "INFO" |}.

(** ** [default_response_class=ORJSONResponse]

    What a handler returns is serialised by orjson, which takes integers of
    64 bits only (from -2^63 to 2^64-1) and strings of Unicode scalar values
    only, and raises [TypeError] on anything else. *)

Definition fits_64_bits (n : Z) : bool :=
  ((-9223372036854775808 <=? n) && (n <=? 18446744073709551615))%Z.

Fixpoint orjson_serialisable (j : json) : bool :=
  match j with
  | JNull => true
  | JBool _ => true
  | JNumber n => fits_64_bits n
  | JStr s => forallb is_scalar s
  | JList items => forallb orjson_serialisable items
  | JDict members =>
      forallb (fun kv => forallb is_scalar (fst kv)
                         && orjson_serialisable (snd kv))
              members
  end.

(** [ORJSONResponse(content, status_code=status)] *)
Definition orjson_response (status : Z) (j : json) : M Response :=
  if orjson_serialisable j then ret (json_response status j)
  else raise TypeError.

Section Server.
Variable ucd : UnicodeData.
Variable cfg : Config.

(** The [detail] dict of the two [HTTPException]s of [run_claude]. *)
Definition error_detail (error message request_id : pystr) : json :=
  JDict [(py "error", JStr error);
         (py "message", JStr message);
         (py "request_id", JStr request_id)].

(** The [except asyncio.TimeoutError:] block. *)
Definition on_timeout (proc : Process) (request_id : pystr)
  : M (Z * bytes * bytes) :=
  kill proc;;
  log ERROR [py "["; request_id; py "] Request timed out after ";
             str_of_int (TIMEOUT cfg); py "s"];;
  raise (HTTPException 504
           (error_detail (py "timeout")
              (py "Request timed out after " ++ str_of_int (TIMEOUT cfg)
                 ++ py " seconds")
              request_id)).

(** [async def run_claude(prompt, request)] *)
Definition run_claude (prompt : pystr) (request : Request) : M pystr :=
  let request_id := getattr_request_id request (py "unknown") in
  log INFO [py "["; request_id; py "] Running Claude CLI (prompt length: ";
            str_of_int (len prompt); py " chars)"];;
  proc <- create_subprocess_exec [py "claude"; py "-p"; prompt];;
  r <- try_except (wait_for_communicate proc (TIMEOUT cfg))
         (fun e => match e with
                   | TimeoutError => Some (on_timeout proc request_id)
                   | _ => None
                   end);;
  let '(returncode, stdout, stderr) := r in
  if negb (returncode =? 0)%Z then
    err <- decode_or_raise stderr;;
    let error_msg :=
      py_or (strip err) (py "Claude CLI returned non-zero exit code") in
    log ERROR [py "["; request_id; py "] Claude CLI error: "; error_msg];;
    raise (HTTPException 500
             (error_detail (py "cli_error") error_msg request_id))
  else
    out <- decode_or_raise stdout;;
    let response := strip out in
    log INFO [py "["; request_id; py "] Claude CLI response (length: ";
              str_of_int (len response); py " chars)"];;
    ret response.

(** [async def ask(req, request)] *)
Definition ask (req : AskRequest) (request : Request) : M json :=
  response <- run_claude (prompt req) request;;
  ret (JDict [(py "success", JBool true); (py "response", JStr response)]).

(** [f"{msg.role.capitalize()}: {msg.content}"] *)
Definition message_line (msg : Message) : pystr :=
  capitalize ucd (role msg) ++ py ": " ++ content msg.

(** The list [prompt_parts] that [chat] builds: the system line when
    [req.system] is not empty, then one [append] per message. *)
Definition prompt_parts (req : ChatRequest) : list pystr :=
  let prompt_parts := [] in
  let prompt_parts :=
    if truthy (system req)
    then prompt_parts ++ [py "System: " ++ system req ++ NL]
    else prompt_parts in
  fold_left (fun parts msg => parts ++ [message_line msg])
            (messages req) prompt_parts.

(** The prompt [chat] hands to [run_claude]: ["\n".join(prompt_parts)]. *)
Definition chat_prompt (req : ChatRequest) : pystr :=
  join NL (prompt_parts req).

(** [async def chat(req, request)] *)
Definition chat (req : ChatRequest) (request : Request) : M json :=
  response <- run_claude (chat_prompt req) request;;
  ret (JDict [(py "success", JBool true);
              (py "message",
               JDict [(py "role", JStr (py "assistant"));
                      (py "content", JStr response)])]).

(** [async def health()] *)
Definition health : M json :=
  ret (JDict [(py "status", JStr (py "ok"))]).

(** [async def version()] *)
Definition version : M json :=
  ret (JDict [(py "version", JStr __version__);
              (py "timeout", JNumber (TIMEOUT cfg));
              (py "cors_enabled", JBool (ENABLE_CORS cfg))]).

(** ** The framework around the handlers *)

(** A route: the body parameter is validated against its model, and only a
    valid one reaches the handler, whose result is rendered by the default
    response class with status 200. *)
Definition endpoint (op : operation) (request : Request) : M Response :=
  match op with
  | PostAsk b =>
      match validate_body validate_AskRequest b with
      | Invalid errors => raise (RequestValidationError errors)
      | Valid req => j <- ask req request;; orjson_response 200 j
      end
  | PostChat b =>
      match validate_body validate_ChatRequest b with
      | Invalid errors => raise (RequestValidationError errors)
      | Valid req => j <- chat req request;; orjson_response 200 j
      end
  | GetHealth => j <- health;; orjson_response 200 j
  | GetVersion => j <- version;; orjson_response 200 j
  end.

(** The framework's exception handlers: an [HTTPException] becomes a JSON
    response [{"detail": detail}] with its status code, a validation error
    a 422; every other exception passes through. *)
Definition exception_handlers (m : M Response) : M Response :=
  try_except m
    (fun e => match e with
              | HTTPException status detail =>
                  Some (ret (json_response status (JDict [(py "detail", detail)])))
              | RequestValidationError errors =>
                  Some (ret (validation_response errors))
              | _ => None
              end).

(** [async def add_request_id(request, call_next)]; [uuid4] is the text of
    the fresh [uuid.uuid4()]. *)
Definition add_request_id (uuid4 : pystr) (request : Request)
    (call_next : Request -> M Response) : M Response :=
  let request_id := firstn 8 uuid4 in
  let request := set_state_request_id request request_id in
  log DEBUG [py "["; request_id; py "] "; method request; py " "; path request];;
  response <- call_next request;;
  ret (set_header response (py "X-Request-ID") request_id).

(** The outermost layer of the framework: an exception nobody handled is
    answered with a bare 500. *)
Definition server_error_middleware (m : M Response) (w : World)
  : list event * Response :=
  match m w with
  | (t, Return r) => (t, r)
  | (t, Raise _) => (t, plain_response 500 (py "Internal Server Error"))
  end.

(** One request through the whole stack. *)
Definition app (uuid4 : pystr) (op : operation) (w : World)
  : list event * Response :=
  server_error_middleware
    (add_request_id uuid4 (request_of op)
       (fun request => exception_handlers (endpoint op request)))
    w.

End Server.

(** Case tables for closed examples whose strings are ASCII: there the
    tables are never consulted. *)
Definition ascii_only : UnicodeData :=
  {| ucd_title := fun c => [c]; ucd_lower := fun _ _ c => [c] |}.

End ClaudeApi.
Import ClaudeApi.

(* ================================================================== *)
(** * Facts about strings *)
(* ================================================================== *)

Module PyStrFacts.

Lemma eqb_eq (a b : pystr) : PyStr.eqb a b = true <-> a = b.
Proof.
  unfold PyStr.eqb. destruct (list_eq_dec N.eq_dec a b); split; congruence.
Qed.

Lemma eqb_refl (a : pystr) : PyStr.eqb a a = true.
Proof. now apply eqb_eq. Qed.

(** ** The primitives on small inputs *)

Example decode_boom : decode (b_lit "boom") = Some (py "boom").
Proof. reflexivity. Qed.

Example decode_euro :
  decode [Byte.xe2; Byte.x82; Byte.xac] = Some [8364].
Proof. reflexivity. Qed.

Example decode_invalid : decode [Byte.xff] = None.
Proof. reflexivity. Qed.

Example decode_surrogate : decode [Byte.xed; Byte.xa0; Byte.x80] = None.
Proof. reflexivity. Qed.

Example strip_example :
  strip (py "  hello world " ++ NL) = py "hello world".
Proof. reflexivity. Qed.

Example str_of_int_120 : str_of_int 120 = py "120".
Proof. reflexivity. Qed.

(** Every character of [l] is whitespace. *)
Definition all_space (l : pystr) : Prop := Forall (fun c => isspace c = true) l.

(** [t] is [s] without a run of whitespace at each end, and has no
    whitespace left at either end: what "trimmed" means. *)
Definition trimmed_of (s t : pystr) : Prop :=
  (exists l r, s = l ++ t ++ r /\ all_space l /\ all_space r)
  /\ (forall c u, t = c :: u -> isspace c = false)
  /\ (forall u c, t = u ++ [c] -> isspace c = false).

Lemma lstrip_split (s : pystr) :
  exists l, s = l ++ lstrip s /\ all_space l.
Proof.
  induction s as [|c s [l [Hs Hl]]]; simpl.
  - exists []. split; [reflexivity | constructor].
  - destruct (isspace c) eqn:Hc.
    + exists (c :: l). split.
      * simpl. now rewrite <- Hs.
      * now constructor.
    + exists []. split; [reflexivity | constructor].
Qed.

Lemma lstrip_head (s : pystr) (c : codepoint) (u : pystr) :
  lstrip s = c :: u -> isspace c = false.
Proof.
  induction s as [|a s IH]; simpl; [discriminate|].
  destruct (isspace a) eqn:Ha; [exact IH|].
  intros H. injection H as -> _. exact Ha.
Qed.

Lemma rstrip_split (s : pystr) :
  exists r, s = rstrip s ++ r /\ all_space r.
Proof.
  destruct (lstrip_split (rev s)) as [l [Hs Hl]].
  exists (rev l). split.
  - unfold rstrip. rewrite <- rev_app_distr, <- Hs. now rewrite rev_involutive.
  - now apply Forall_rev.
Qed.

Lemma rstrip_last (s u : pystr) (c : codepoint) :
  rstrip s = u ++ [c] -> isspace c = false.
Proof.
  unfold rstrip. intros H.
  apply (f_equal (@rev codepoint)) in H.
  rewrite rev_involutive, rev_app_distr in H. simpl in H.
  exact (lstrip_head _ _ _ H).
Qed.

Lemma strip_trimmed (s : pystr) : trimmed_of s (strip s).
Proof.
  unfold trimmed_of, strip.
  destruct (lstrip_split s) as [l [Hs Hl]].
  destruct (rstrip_split (lstrip s)) as [r [Hr Hsp]].
  repeat split.
  - exists l, r. repeat split; try assumption.
    now rewrite <- Hr.
  - intros c u Hc. rewrite Hc in Hr. simpl in Hr.
    exact (lstrip_head _ _ _ Hr).
  - intros u c. apply rstrip_last.
Qed.

(** A string with no whitespace at either end is left alone. *)
Lemma lstrip_id (s : pystr) :
  (forall c u, s = c :: u -> isspace c = false) -> lstrip s = s.
Proof.
  destruct s as [|c u]; simpl; [reflexivity|].
  intros H. now rewrite (H c u eq_refl).
Qed.

Lemma strip_idempotent (s : pystr) : strip (strip s) = strip s.
Proof.
  destruct (strip_trimmed s) as [_ [Hh Hl]].
  unfold strip at 1.
  rewrite (lstrip_id _ Hh).
  unfold rstrip.
  rewrite lstrip_id; [apply rev_involutive|].
  intros c u Hc. apply (Hl (rev u) c).
  apply (f_equal (@rev codepoint)) in Hc.
  rewrite rev_involutive in Hc. exact Hc.
Qed.

(** ** ASCII bytes decode to themselves *)

Lemma utf8_decode_ascii (bs : list N) :
  forallb is_ascii bs = true -> utf8_decode bs = Some bs.
Proof.
  induction bs as [|b bs IH]; simpl; [reflexivity|].
  intros H. apply andb_prop in H as [Hb Hbs].
  unfold is_ascii in Hb. rewrite Hb, (IH Hbs). reflexivity.
Qed.

(** ** [capitalize] on ASCII strings: upper-case the first character,
    lower-case the others *)

Lemma lower_from_ascii (ucd : UnicodeData) (s : pystr) (i : nat) (rest : pystr) :
  forallb is_ascii rest = true ->
  lower_from ucd s i rest = map ascii_lower rest.
Proof.
  revert i. induction rest as [|c rest IH]; intros i H; simpl; [reflexivity|].
  simpl in H. apply andb_prop in H as [Hc Hrest].
  unfold lower_ucs4. rewrite Hc, (IH _ Hrest). reflexivity.
Qed.

Lemma capitalize_ascii (ucd : UnicodeData) (c : codepoint) (rest : pystr) :
  forallb is_ascii (c :: rest) = true ->
  capitalize ucd (c :: rest) = ascii_upper c :: map ascii_lower rest.
Proof.
  intros H. simpl in H. apply andb_prop in H as [Hc Hrest].
  unfold capitalize, to_title_full.
  rewrite Hc, (lower_from_ascii _ _ _ _ Hrest). reflexivity.
Qed.

(** ** Encoding then decoding *)

(** Decides the comparisons of a goal, leaving the arithmetic to [lia]. *)
Ltac decide_ranges :=
  repeat match goal with
    | |- context [?a <? ?b] => destruct (N.ltb_spec a b); try lia
    | |- context [?a <=? ?b] => destruct (N.leb_spec a b); try lia
    | |- context [?a =? ?b] => destruct (N.eqb_spec a b); try lia
    end.

(** Replaces the test [b] by its value [v], which arithmetic settles. *)
Ltac settle b v :=
  let E := fresh "E" in
  assert (E : b = v)
    by (unfold second_of_3, second_of_4, is_cont, in_range;
        decide_ranges; reflexivity);
  rewrite E; clear E.

Lemma utf8_decode_cons (b0 : N) (r0 : list N) :
  utf8_decode (b0 :: r0)
  = if b0 <? 128 then option_map (cons b0) (utf8_decode r0)
    else if in_range 194 223 b0 then
      match r0 with
      | b1 :: r1 =>
          if is_cont b1
          then option_map (cons ((b0 - 192) * 64 + (b1 - 128))) (utf8_decode r1)
          else None
      | _ => None
      end
    else if in_range 224 239 b0 then
      match r0 with
      | b1 :: b2 :: r2 =>
          if second_of_3 b0 b1 && is_cont b2
          then option_map
                 (cons ((b0 - 224) * 4096 + (b1 - 128) * 64 + (b2 - 128)))
                 (utf8_decode r2)
          else None
      | _ => None
      end
    else if in_range 240 244 b0 then
      match r0 with
      | b1 :: b2 :: b3 :: r3 =>
          if second_of_4 b0 b1 && is_cont b2 && is_cont b3
          then option_map
                 (cons ((b0 - 240) * 262144 + (b1 - 128) * 4096
                        + (b2 - 128) * 64 + (b3 - 128)))
                 (utf8_decode r3)
          else None
      | _ => None
      end
    else None.
Proof. reflexivity. Qed.

Lemma utf8_decode_encode_char (c : codepoint) (rest : list N) :
  is_scalar c = true ->
  utf8_decode (utf8_encode_char c ++ rest)
  = option_map (cons c) (utf8_decode rest).
Proof.
  unfold is_scalar, utf8_encode_char. intros S.
  assert (S' : c < 55296 \/ 57343 < c < 1114112).
  { revert S. decide_ranges; simpl; intros; try discriminate; lia. }
  clear S.
  pose proof (N.div_mod c 64 ltac:(lia)) as E1.
  pose proof (N.mod_lt c 64 ltac:(lia)) as B1.
  pose proof (N.div_mod (c / 64) 64 ltac:(lia)) as E2.
  pose proof (N.mod_lt (c / 64) 64 ltac:(lia)) as B2.
  pose proof (N.div_mod (c / 4096) 64 ltac:(lia)) as E3.
  pose proof (N.mod_lt (c / 4096) 64 ltac:(lia)) as B3.
  assert (D2 : c / 4096 = c / 64 / 64)
    by (rewrite N.Div0.div_div; reflexivity).
  assert (D3 : c / 262144 = c / 4096 / 64)
    by (rewrite N.Div0.div_div; reflexivity).
  rewrite D3. rewrite D2 in *. clear D2 D3.
  generalize dependent (c mod 64). intros r1.
  generalize dependent ((c / 64) mod 64). intros r2.
  generalize dependent ((c / 64 / 64) mod 64). intros r3.
  generalize dependent (c / 64 / 64 / 64). intros q3.
  generalize dependent (c / 64 / 64). intros q2.
  generalize dependent (c / 64). intros q1.
  intros.
  destruct (N.ltb_spec c 128) as [L1|L1];
    [|destruct (N.ltb_spec c 2048) as [L2|L2];
      [|destruct (N.ltb_spec c 65536) as [L3|L3]]];
    cbn [List.app]; rewrite utf8_decode_cons.
  - settle (c <? 128) true. reflexivity.
  - settle (192 + q1 <? 128) false.
    settle (in_range 194 223 (192 + q1)) true.
    settle (is_cont (128 + r1)) true.
    f_equal. f_equal. lia.
  - settle (224 + q2 <? 128) false.
    settle (in_range 194 223 (224 + q2)) false.
    settle (in_range 224 239 (224 + q2)) true.
    settle (second_of_3 (224 + q2) (128 + r2)) true.
    settle (is_cont (128 + r1)) true.
    cbn [andb]. f_equal. f_equal. lia.
  - settle (240 + q3 <? 128) false.
    settle (in_range 194 223 (240 + q3)) false.
    settle (in_range 224 239 (240 + q3)) false.
    settle (in_range 240 244 (240 + q3)) true.
    settle (second_of_4 (240 + q3) (128 + r3)) true.
    settle (is_cont (128 + r2)) true.
    settle (is_cont (128 + r1)) true.
    cbn [andb]. f_equal. f_equal. lia.
Qed.

(** Every byte of an encoding fits a byte. *)
Lemma utf8_encode_char_bytes (c : codepoint) :
  is_scalar c = true ->
  Forall (fun b => b <= 255) (utf8_encode_char c).
Proof.
  unfold is_scalar, utf8_encode_char. intros S.
  assert (S' : c < 1114112).
  { revert S. decide_ranges; simpl; intros; try discriminate; lia. }
  clear S.
  pose proof (N.mod_lt c 64 ltac:(lia)).
  pose proof (N.mod_lt (c / 64) 64 ltac:(lia)).
  pose proof (N.mod_lt (c / 4096) 64 ltac:(lia)).
  assert (c / 64 < 32 \/ 2048 <= c)
    by (destruct (N.ltb_spec c 2048);
        [left; apply N.Div0.div_lt_upper_bound; lia | now right]).
  assert (c / 4096 < 16 \/ 65536 <= c)
    by (destruct (N.ltb_spec c 65536);
        [left; apply N.Div0.div_lt_upper_bound; lia | now right]).
  assert (c / 262144 < 5) by (apply N.Div0.div_lt_upper_bound; lia).
  destruct (N.ltb_spec c 128); [|destruct (N.ltb_spec c 2048);
    [|destruct (N.ltb_spec c 65536)]];
    repeat constructor; lia.
Qed.

Lemma to_N_byte_of_N (n : N) : n <= 255 -> Byte.to_N (byte_of_N n) = n.
Proof.
  intros H. unfold byte_of_N.
  destruct (Byte.of_N n) as [b|] eqn:E.
  - now apply Byte.to_of_N.
  - apply Byte.of_N_None_iff in E. lia.
Qed.

Lemma decode_encode (s : pystr) (b : bytes) :
  encode s = Some b -> decode b = Some s.
Proof.
  unfold encode, decode.
  destruct (forallb is_scalar s) eqn:S; [|discriminate].
  intros [= <-]. rewrite map_map.
  induction s as [|c s IH]; [reflexivity|].
  cbn [forallb] in S. apply andb_prop in S as [Sc Ss].
  cbn [utf8_encode flat_map]. rewrite map_app.
  assert (B : map (fun n => Byte.to_N (byte_of_N n)) (utf8_encode_char c)
              = utf8_encode_char c).
  { pose proof (utf8_encode_char_bytes c Sc) as F.
    induction F as [|x l Hx F IHF]; [reflexivity|].
    cbn [map]. now rewrite (to_N_byte_of_N x Hx), IHF. }
  rewrite B, (utf8_decode_encode_char c _ Sc).
  fold (utf8_encode s). now rewrite (IH Ss).
Qed.

Lemma py_or_nonempty (a b : pystr) : b <> [] -> py_or a b <> [].
Proof.
  unfold py_or. destruct a; simpl; [auto | discriminate].
Qed.

End PyStrFacts.
Import PyStrFacts.

(* ================================================================== *)
(** * UTF-8: what decodes is an encoding *)
(* ================================================================== *)

Module Utf8.

(** Turns the range tests among the hypotheses into inequalities. *)
Ltac ranges_in_hyps :=
  unfold is_cont, in_range in *;
  repeat match goal with
    | H : _ && _ = true |- _ => apply andb_prop in H; destruct H
    | H : (_ <=? _) = true |- _ => apply N.leb_le in H
    | H : (_ <? _) = true |- _ => apply N.ltb_lt in H
    | H : (_ <? _) = false |- _ => apply N.ltb_ge in H
    end.

Lemma encode_char_1 (b0 : N) :
  b0 < 128 -> is_scalar b0 = true /\ utf8_encode_char b0 = [b0].
Proof.
  intros H. unfold is_scalar, utf8_encode_char.
  settle (b0 <? 128) true. settle (b0 <? 55296) true. auto.
Qed.

Lemma encode_char_2 (b0 b1 : N) :
  in_range 194 223 b0 = true -> is_cont b1 = true ->
  is_scalar ((b0 - 192) * 64 + (b1 - 128)) = true
  /\ utf8_encode_char ((b0 - 192) * 64 + (b1 - 128)) = [b0; b1].
Proof.
  intros H0 H1. ranges_in_hyps.
  set (c := (b0 - 192) * 64 + (b1 - 128)).
  assert (Q : c / 64 = b0 - 192)
    by (symmetry; apply (N.div_unique c 64 _ (b1 - 128)); unfold c; lia).
  assert (R : c mod 64 = b1 - 128)
    by (symmetry; apply (N.mod_unique c 64 (b0 - 192)); unfold c; lia).
  assert (128 <= c < 2048) by (unfold c; lia).
  unfold is_scalar, utf8_encode_char. rewrite Q, R.
  settle (c <? 128) false. settle (c <? 2048) true. settle (c <? 55296) true.
  split; [reflexivity|]. f_equal; [|f_equal]; lia.
Qed.

Lemma encode_char_3 (b0 b1 b2 : N) :
  in_range 224 239 b0 = true -> second_of_3 b0 b1 = true ->
  is_cont b2 = true ->
  is_scalar ((b0 - 224) * 4096 + (b1 - 128) * 64 + (b2 - 128)) = true
  /\ utf8_encode_char ((b0 - 224) * 4096 + (b1 - 128) * 64 + (b2 - 128))
     = [b0; b1; b2].
Proof.
  intros H0 H1 H2. unfold second_of_3 in H1.
  assert (B1 : 128 <= b1 <= 191
               /\ (b0 = 224 -> 160 <= b1) /\ (b0 = 237 -> b1 <= 159)).
  { destruct (N.eqb_spec b0 224); [|destruct (N.eqb_spec b0 237)];
      ranges_in_hyps; lia. }
  clear H1. ranges_in_hyps.
  set (c := (b0 - 224) * 4096 + (b1 - 128) * 64 + (b2 - 128)).
  assert (Q1 : c / 64 = (b0 - 224) * 64 + (b1 - 128))
    by (symmetry; apply (N.div_unique c 64 _ (b2 - 128)); unfold c; lia).
  assert (R1 : c mod 64 = b2 - 128)
    by (symmetry;
        apply (N.mod_unique c 64 ((b0 - 224) * 64 + (b1 - 128)));
        unfold c; lia).
  assert (Q2 : c / 4096 = b0 - 224)
    by (symmetry;
        apply (N.div_unique c 4096 _ ((b1 - 128) * 64 + (b2 - 128)));
        unfold c; lia).
  assert (R2 : (c / 64) mod 64 = b1 - 128)
    by (rewrite Q1; symmetry;
        apply (N.mod_unique _ 64 (b0 - 224)); lia).
  assert (2048 <= c < 65536 /\ (c < 55296 \/ 57343 < c)) by (unfold c; lia).
  unfold is_scalar, utf8_encode_char. rewrite Q2, R2, R1.
  settle (c <? 128) false. settle (c <? 2048) false. settle (c <? 65536) true.
  split.
  - destruct (N.ltb_spec c 55296); [reflexivity|].
    settle (57343 <? c) true. settle (c <? 1114112) true. reflexivity.
  - f_equal; [|f_equal; [|f_equal]]; lia.
Qed.

Lemma encode_char_4 (b0 b1 b2 b3 : N) :
  in_range 240 244 b0 = true -> second_of_4 b0 b1 = true ->
  is_cont b2 = true -> is_cont b3 = true ->
  is_scalar ((b0 - 240) * 262144 + (b1 - 128) * 4096 + (b2 - 128) * 64
             + (b3 - 128)) = true
  /\ utf8_encode_char ((b0 - 240) * 262144 + (b1 - 128) * 4096
                       + (b2 - 128) * 64 + (b3 - 128))
     = [b0; b1; b2; b3].
Proof.
  intros H0 H1 H2 H3. unfold second_of_4 in H1.
  assert (B1 : 128 <= b1 <= 191
               /\ (b0 = 240 -> 144 <= b1) /\ (b0 = 244 -> b1 <= 143)).
  { destruct (N.eqb_spec b0 240); [|destruct (N.eqb_spec b0 244)];
      ranges_in_hyps; lia. }
  clear H1. ranges_in_hyps.
  set (c := (b0 - 240) * 262144 + (b1 - 128) * 4096 + (b2 - 128) * 64
            + (b3 - 128)).
  assert (Q1 : c / 64
               = (b0 - 240) * 4096 + (b1 - 128) * 64 + (b2 - 128))
    by (symmetry; apply (N.div_unique c 64 _ (b3 - 128)); unfold c; lia).
  assert (R1 : c mod 64 = b3 - 128)
    by (symmetry;
        apply (N.mod_unique c 64
                 ((b0 - 240) * 4096 + (b1 - 128) * 64 + (b2 - 128)));
        unfold c; lia).
  assert (Q2 : c / 4096 = (b0 - 240) * 64 + (b1 - 128))
    by (symmetry;
        apply (N.div_unique c 4096 _ ((b2 - 128) * 64 + (b3 - 128)));
        unfold c; lia).
  assert (Q3 : c / 262144 = b0 - 240)
    by (symmetry;
        apply (N.div_unique c 262144 _
                 ((b1 - 128) * 4096 + (b2 - 128) * 64 + (b3 - 128)));
        unfold c; lia).
  assert (R2 : (c / 64) mod 64 = b2 - 128)
    by (rewrite Q1; symmetry;
        apply (N.mod_unique _ 64 ((b0 - 240) * 64 + (b1 - 128))); lia).
  assert (R3 : (c / 4096) mod 64 = b1 - 128)
    by (rewrite Q2; symmetry; apply (N.mod_unique _ 64 (b0 - 240)); lia).
  assert (65536 <= c < 1114112) by (unfold c; lia).
  unfold is_scalar, utf8_encode_char. rewrite Q3, R3, R2, R1.
  settle (c <? 128) false. settle (c <? 2048) false. settle (c <? 65536) false.
  settle (c <? 55296) false. settle (57343 <? c) true.
  settle (c <? 1114112) true.
  split; [reflexivity|]. f_equal; [|f_equal; [|f_equal; [|f_equal]]]; lia.
Qed.


Lemma option_map_cons_some (c : codepoint) (o : option pystr) (s : pystr) :
  option_map (cons c) o = Some s -> exists s', o = Some s' /\ s = c :: s'.
Proof.
  destruct o as [s'|]; simpl; [|discriminate].
  intros [= <-]. now exists s'.
Qed.

(** What decodes to [s] is the encoding of [s], and [s] holds Unicode scalar
    values only. *)
Lemma utf8_encode_decode (n : nat) :
  forall (bs : list N) (s : pystr),
    (List.length bs <= n)%nat ->
    utf8_decode bs = Some s ->
    forallb is_scalar s = true /\ utf8_encode s = bs.
Proof.
  induction n as [|n IH]; intros bs s L H.
  - destruct bs; [|simpl in L; lia]. injection H as <-. auto.
  - destruct bs as [|b0 r0]; [injection H as <-; auto|].
    rewrite utf8_decode_cons in H. cbn [List.length] in L.
    destruct (b0 <? 128) eqn:T1.
    { apply option_map_cons_some in H as [s' [D ->]].
      apply IH in D as [S E]; [|lia].
      apply N.ltb_lt in T1. destruct (encode_char_1 b0 T1) as [Sc Ec].
      cbn [forallb utf8_encode flat_map]. fold (utf8_encode s').
      now rewrite Sc, S, Ec, E. }
    destruct (in_range 194 223 b0) eqn:T2.
    { destruct r0 as [|b1 r1]; [discriminate|].
      destruct (is_cont b1) eqn:C1; [|discriminate].
      apply option_map_cons_some in H as [s' [D ->]].
      cbn [List.length] in L. apply IH in D as [S E]; [|lia].
      destruct (encode_char_2 b0 b1 T2 C1) as [Sc Ec].
      cbn [forallb utf8_encode flat_map]. fold (utf8_encode s').
      now rewrite Sc, S, Ec, E. }
    destruct (in_range 224 239 b0) eqn:T3.
    { destruct r0 as [|b1 [|b2 r2]]; try discriminate.
      destruct (second_of_3 b0 b1) eqn:C1; [|discriminate].
      destruct (is_cont b2) eqn:C2; [|discriminate].
      cbn [andb] in H.
      apply option_map_cons_some in H as [s' [D ->]].
      cbn [List.length] in L. apply IH in D as [S E]; [|lia].
      destruct (encode_char_3 b0 b1 b2 T3 C1 C2) as [Sc Ec].
      cbn [forallb utf8_encode flat_map]. fold (utf8_encode s').
      now rewrite Sc, S, Ec, E. }
    destruct (in_range 240 244 b0) eqn:T4; [|discriminate].
    destruct r0 as [|b1 [|b2 [|b3 r3]]]; try discriminate.
    destruct (second_of_4 b0 b1) eqn:C1; [|discriminate].
    destruct (is_cont b2) eqn:C2; [|discriminate].
    destruct (is_cont b3) eqn:C3; [|discriminate].
    cbn [andb] in H.
    apply option_map_cons_some in H as [s' [D ->]].
    cbn [List.length] in L. apply IH in D as [S E]; [|lia].
    destruct (encode_char_4 b0 b1 b2 b3 T4 C1 C2 C3) as [Sc Ec].
    cbn [forallb utf8_encode flat_map]. fold (utf8_encode s').
    now rewrite Sc, S, Ec, E.
Qed.

Lemma byte_of_N_to_N (b : Byte.byte) : byte_of_N (Byte.to_N b) = b.
Proof. unfold byte_of_N. now rewrite Byte.of_to_N. Qed.

Lemma encode_decode (b : bytes) (s : pystr) :
  decode b = Some s -> encode s = Some b.
Proof.
  unfold decode, encode. intros D.
  apply (utf8_encode_decode (List.length (map Byte.to_N b))) in D as [S E];
    [|lia].
  rewrite S, E, map_map. f_equal. clear.
  induction b as [|x b IH]; [reflexivity|].
  cbn [map]. now rewrite byte_of_N_to_N, IH.
Qed.

End Utf8.
Import Utf8.

(* ================================================================== *)
(** * The executor, outcome by outcome *)
(* ================================================================== *)

Module Executor.

(** The argument vector [run_claude] starts the tool with. *)
Definition claude_argv (prompt : pystr) : list pystr :=
  [py "claude"; py "-p"; prompt].

(** The identifier [run_claude] works with. *)
Definition rid_of (request : Request) : pystr :=
  getattr_request_id request (py "unknown").

(** The log lines of [run_claude]. *)
Definition log_running (request : Request) (prompt : pystr) : event :=
  Log INFO (py "[" ++ rid_of request
            ++ py "] Running Claude CLI (prompt length: "
            ++ str_of_int (len prompt) ++ py " chars)").

Definition log_timed_out (cfg : Config) (request : Request) : event :=
  Log ERROR (py "[" ++ rid_of request ++ py "] Request timed out after "
             ++ str_of_int (TIMEOUT cfg) ++ py "s").

Definition log_cli_error (request : Request) (error_msg : pystr) : event :=
  Log ERROR (py "[" ++ rid_of request ++ py "] Claude CLI error: " ++ error_msg).

Definition log_response (request : Request) (response : pystr) : event :=
  Log INFO (py "[" ++ rid_of request ++ py "] Claude CLI response (length: "
            ++ str_of_int (len response) ++ py " chars)").

(** The message of a non-zero exit whose standard error decodes to [text]. *)
Definition cli_error_message (text : pystr) : pystr :=
  py_or (strip text) (py "Claude CLI returned non-zero exit code").

Definition timeout_message (cfg : Config) : pystr :=
  py "Request timed out after " ++ str_of_int (TIMEOUT cfg) ++ py " seconds".

Ltac run_claude_unfold H :=
  unfold run_claude, bind, log, emit, create_subprocess_exec, claude_argv in *;
  cbn; rewrite H; cbn.

Section Outcomes.
Variable cfg : Config.
Variable prompt : pystr.
Variable request : Request.
Variable w : World.

Lemma run_claude_spawn_fails (e : spawn_error) :
  w (claude_argv prompt) = SpawnFails e ->
  run_claude cfg prompt request w
  = ([log_running request prompt; Exec (claude_argv prompt)],
     Raise (OSError e)).
Proof.
  intros H. run_claude_unfold H.
  unfold log_running, rid_of. now rewrite !app_nil_r.
Qed.

Lemma run_claude_hangs :
  w (claude_argv prompt) = Hangs ->
  run_claude cfg prompt request w
  = ([log_running request prompt; Exec (claude_argv prompt);
      Kill (claude_argv prompt); log_timed_out cfg request],
     Raise (HTTPException 504
              (error_detail (py "timeout") (timeout_message cfg)
                 (rid_of request)))).
Proof.
  intros H. run_claude_unfold H.
  unfold log_running, log_timed_out, timeout_message, rid_of.
  now rewrite !app_nil_r.
Qed.

Lemma run_claude_nonzero (rc : Z) (out err : bytes) (text : pystr) :
  w (claude_argv prompt) = Exits rc out err ->
  rc <> 0%Z ->
  decode err = Some text ->
  run_claude cfg prompt request w
  = ([log_running request prompt; Exec (claude_argv prompt);
      log_cli_error request (cli_error_message text)],
     Raise (HTTPException 500
              (error_detail (py "cli_error") (cli_error_message text)
                 (rid_of request)))).
Proof.
  intros H Hrc Hd. run_claude_unfold H.
  apply Z.eqb_neq in Hrc. rewrite Hrc. cbn.
  unfold decode_or_raise. rewrite Hd. cbn.
  unfold log_running, log_cli_error, cli_error_message, rid_of.
  now rewrite !app_nil_r.
Qed.

Lemma run_claude_nonzero_undecodable (rc : Z) (out err : bytes) :
  w (claude_argv prompt) = Exits rc out err ->
  rc <> 0%Z ->
  decode err = None ->
  run_claude cfg prompt request w
  = ([log_running request prompt; Exec (claude_argv prompt)],
     Raise UnicodeDecodeError).
Proof.
  intros H Hrc Hd. run_claude_unfold H.
  apply Z.eqb_neq in Hrc. rewrite Hrc. cbn.
  unfold decode_or_raise. rewrite Hd. cbn.
  unfold log_running, rid_of. now rewrite !app_nil_r.
Qed.

Lemma run_claude_zero (out err : bytes) (text : pystr) :
  w (claude_argv prompt) = Exits 0 out err ->
  decode out = Some text ->
  run_claude cfg prompt request w
  = ([log_running request prompt; Exec (claude_argv prompt);
      log_response request (strip text)],
     Return (strip text)).
Proof.
  intros H Hd. run_claude_unfold H.
  unfold decode_or_raise. rewrite Hd. cbn.
  unfold log_running, log_response, rid_of.
  now rewrite !app_nil_r.
Qed.

Lemma run_claude_zero_undecodable (out err : bytes) :
  w (claude_argv prompt) = Exits 0 out err ->
  decode out = None ->
  run_claude cfg prompt request w
  = ([log_running request prompt; Exec (claude_argv prompt)],
     Raise UnicodeDecodeError).
Proof.
  intros H Hd. run_claude_unfold H.
  unfold decode_or_raise. rewrite Hd. cbn.
  unfold log_running, rid_of. now rewrite !app_nil_r.
Qed.

(** Whatever happens, the tool is started exactly once, first thing after
    the opening log line. *)
Lemma run_claude_starts_once :
  exists rest,
    fst (run_claude cfg prompt request w)
    = log_running request prompt :: Exec (claude_argv prompt) :: rest
    /\ forall argv, ~ In (Exec argv) rest.
Proof.
  destruct (w (claude_argv prompt)) as [e| |rc out err] eqn:H.
  - rewrite (run_claude_spawn_fails e H). exists []. simpl. auto.
  - rewrite (run_claude_hangs H). eexists. simpl. split; [reflexivity|].
    intros argv [E|[E|[]]]; discriminate.
  - destruct (Z.eq_dec rc 0) as [->|Hrc].
    + destruct (decode out) as [text|] eqn:Hd.
      * rewrite (run_claude_zero _ _ _ H Hd). eexists. simpl.
        split; [reflexivity|]. intros argv [E|[]]; discriminate.
      * rewrite (run_claude_zero_undecodable _ _ H Hd). exists []. simpl. auto.
    + destruct (decode err) as [text|] eqn:Hd.
      * rewrite (run_claude_nonzero _ _ _ _ H Hrc Hd). eexists. simpl.
        split; [reflexivity|]. intros argv [E|[]]; discriminate.
      * rewrite (run_claude_nonzero_undecodable _ _ _ H Hrc Hd).
        exists []. simpl. auto.
Qed.
End Outcomes.

End Executor.
Import Executor.

(* ================================================================== *)
(** * Decimal text *)
(* ================================================================== *)

Module DecimalText.

Lemma py_inj (a b : string) : py a = py b -> a = b.
Proof.
  unfold py. intros H.
  assert (L : list_ascii_of_string a = list_ascii_of_string b).
  { revert H. generalize (list_ascii_of_string a) (list_ascii_of_string b).
    induction l as [|x l IH]; intros [|y m]; simpl; try discriminate; auto.
    intros [= E T]. f_equal; [|now apply IH].
    rewrite <- (ascii_N_embedding x), <- (ascii_N_embedding y). now rewrite E. }
  rewrite <- (string_of_list_ascii_of_string a),
          <- (string_of_list_ascii_of_string b).
  now rewrite L.
Qed.

Lemma to_int_proper (n : Z) :
  Z.to_int n <> Decimal.Pos Decimal.Nil /\ Z.to_int n <> Decimal.Neg Decimal.Nil.
Proof.
  destruct n as [|p|p]; simpl; split; try discriminate;
    intros [= E]; now apply DecimalPos.Unsigned.to_uint_nonnil in E.
Qed.

(** [str(n)] determines [n]. *)
Lemma str_of_int_inj (n m : Z) : str_of_int n = str_of_int m -> n = m.
Proof.
  unfold str_of_int. intros H. apply py_inj in H.
  apply DecimalZ.to_int_inj.
  destruct (to_int_proper n) as [N1 N2]. destruct (to_int_proper m) as [M1 M2].
  pose proof (NilZero.isi _ N1 N2) as E1.
  pose proof (NilZero.isi _ M1 M2) as E2.
  rewrite H in E1. congruence.
Qed.

Lemma timeout_message_inj (cfg1 cfg2 : Config) :
  timeout_message cfg1 = timeout_message cfg2 -> TIMEOUT cfg1 = TIMEOUT cfg2.
Proof.
  unfold timeout_message. intros E.
  apply app_inv_head, app_inv_tail in E.
  now apply str_of_int_inj.
Qed.

End DecimalText.
Import DecimalText.

(* ================================================================== *)
(** * What the handlers return can be rendered *)
(* ================================================================== *)

Module Rendering.

Lemma decode_scalars (b : bytes) (s : pystr) :
  decode b = Some s -> forallb is_scalar s = true.
Proof.
  intros D. apply encode_decode in D. unfold encode in D.
  now destruct (forallb is_scalar s).
Qed.

(** Trimming keeps what holds of every character. *)
Lemma forallb_strip (f : codepoint -> bool) (s : pystr) :
  forallb f s = true -> forallb f (strip s) = true.
Proof.
  destruct (strip_trimmed s) as [[l [r [E _]]] _].
  intros F. rewrite E, !forallb_app in F.
  apply andb_prop in F as [_ F]. now apply andb_prop in F as [F _].
Qed.

(** The text [run_claude] returns holds Unicode scalar values only. *)
Lemma run_claude_returns_scalars (cfg : Config) (p : pystr)
    (request : Request) (w : World) (r : pystr) :
  snd (run_claude cfg p request w) = Return r -> forallb is_scalar r = true.
Proof.
  intros H.
  destruct (w (claude_argv p)) as [e| |rc out err] eqn:W.
  - rewrite (run_claude_spawn_fails cfg p request w e W) in H. discriminate.
  - rewrite (run_claude_hangs cfg p request w W) in H. discriminate.
  - destruct (Z.eq_dec rc 0) as [->|Hrc].
    + destruct (decode out) as [text|] eqn:D.
      * rewrite (run_claude_zero cfg p request w out err text W D) in H.
        injection H as <-. apply forallb_strip. now apply decode_scalars in D.
      * rewrite (run_claude_zero_undecodable cfg p request w out err W D) in H.
        discriminate.
    + destruct (decode err) as [text|] eqn:D.
      * rewrite (run_claude_nonzero cfg p request w rc out err text W Hrc D)
          in H. discriminate.
      * rewrite (run_claude_nonzero_undecodable cfg p request w rc out err
                   W Hrc D) in H. discriminate.
Qed.

Lemma serialisable_ask_body (r : pystr) :
  forallb is_scalar r = true ->
  orjson_serialisable
    (JDict [(py "success", JBool true); (py "response", JStr r)]) = true.
Proof.
  intros S. cbn [orjson_serialisable forallb fst snd]. rewrite S. reflexivity.
Qed.

Lemma serialisable_chat_body (r : pystr) :
  forallb is_scalar r = true ->
  orjson_serialisable
    (JDict [(py "success", JBool true);
            (py "message",
             JDict [(py "role", JStr (py "assistant"));
                    (py "content", JStr r)])]) = true.
Proof.
  intros S. cbn [orjson_serialisable forallb fst snd]. rewrite S. reflexivity.
Qed.

End Rendering.
Import Rendering.

(* ================================================================== *)
(** * The stack around a route *)
(* ================================================================== *)

Module Stack.

(** The identifier the middleware gives a request. *)
Definition request_id_of (uuid4 : pystr) : pystr := firstn 8 uuid4.

(** The request as the route sees it, the identifier in its state. *)
Definition routed (uuid4 : pystr) (op : operation) : Request :=
  set_state_request_id (request_of op) (request_id_of uuid4).

(** The middleware's log line. *)
Definition log_request (uuid4 : pystr) (op : operation) : event :=
  Log DEBUG (py "[" ++ request_id_of uuid4 ++ py "] "
             ++ method (request_of op) ++ py " " ++ path (request_of op)).

(** The answer to an exception nobody handled. *)
Definition internal_server_error : Response :=
  plain_response 500 (py "Internal Server Error").

(** What the stack makes of a route's outcome. *)
Definition respond (uuid4 : pystr) (o : outcome Response) : Response :=
  match o with
  | Return r => set_header r (py "X-Request-ID") (request_id_of uuid4)
  | Raise (HTTPException status detail) =>
      set_header (json_response status (JDict [(py "detail", detail)]))
                 (py "X-Request-ID") (request_id_of uuid4)
  | Raise (RequestValidationError errors) =>
      set_header (validation_response errors)
                 (py "X-Request-ID") (request_id_of uuid4)
  | Raise _ => internal_server_error
  end.

Lemma rid_of_routed (uuid4 : pystr) (op : operation) :
  rid_of (routed uuid4 op) = request_id_of uuid4.
Proof. reflexivity. Qed.

Section App.
Variable ucd : UnicodeData.
Variable cfg : Config.
Variable uuid4 : pystr.
Variable w : World.

(** The whole stack in terms of the route alone. *)
Lemma app_endpoint (op : operation) :
  app ucd cfg uuid4 op w
  = (log_request uuid4 op :: fst (endpoint ucd cfg op (routed uuid4 op) w),
     respond uuid4 (snd (endpoint ucd cfg op (routed uuid4 op) w))).
Proof.
  unfold app, server_error_middleware, add_request_id, exception_handlers,
    try_except, bind, log, emit.
  fold (request_id_of uuid4). fold (routed uuid4 op).
  destruct (endpoint ucd cfg op (routed uuid4 op) w) as [t [r|e]]; cbn.
  - unfold log_request. rewrite !app_nil_r. destruct op; reflexivity.
  - destruct e; cbn; unfold log_request; rewrite !app_nil_r;
      destruct op; reflexivity.
Qed.

(** [ask] and [chat] in terms of [run_claude]. *)
Lemma ask_run_claude (req : AskRequest) (request : Request) :
  ask cfg req request w
  = (fst (run_claude cfg (prompt req) request w),
     match snd (run_claude cfg (prompt req) request w) with
     | Return response =>
         Return (JDict [(py "success", JBool true);
                        (py "response", JStr response)])
     | Raise e => Raise e
     end).
Proof.
  unfold ask, bind, ret.
  destruct (run_claude cfg (prompt req) request w) as [t [r|e]]; cbn;
    [now rewrite app_nil_r | reflexivity].
Qed.

Lemma chat_run_claude (req : ChatRequest) (request : Request) :
  chat ucd cfg req request w
  = (fst (run_claude cfg (chat_prompt ucd req) request w),
     match snd (run_claude cfg (chat_prompt ucd req) request w) with
     | Return response =>
         Return (JDict [(py "success", JBool true);
                        (py "message",
                         JDict [(py "role", JStr (py "assistant"));
                                (py "content", JStr response)])])
     | Raise e => Raise e
     end).
Proof.
  unfold chat, bind, ret.
  destruct (run_claude cfg (chat_prompt ucd req) request w) as [t [r|e]]; cbn;
    [now rewrite app_nil_r | reflexivity].
Qed.
(** A route whose body validates runs its handler and renders what it
    returns, which never fails: the text comes from [run_claude]. *)
Lemma endpoint_ask (b : raw_body) (req : AskRequest) (request : Request) :
  validate_body validate_AskRequest b = Valid req ->
  endpoint ucd cfg (PostAsk b) request w
  = (fst (ask cfg req request w),
     match snd (ask cfg req request w) with
     | Return j => Return (json_response 200 j)
     | Raise e => Raise e
     end).
Proof.
  intros H. unfold endpoint. rewrite H. unfold bind.
  rewrite ask_run_claude.
  destruct (run_claude cfg (prompt req) request w) as [t [r|e]] eqn:R;
    cbn [fst snd]; [|reflexivity].
  unfold orjson_response.
  rewrite (serialisable_ask_body r
             (run_claude_returns_scalars cfg _ request w r
                (f_equal snd R))).
  cbn. now rewrite app_nil_r.
Qed.

Lemma endpoint_chat (b : raw_body) (req : ChatRequest) (request : Request) :
  validate_body validate_ChatRequest b = Valid req ->
  endpoint ucd cfg (PostChat b) request w
  = (fst (chat ucd cfg req request w),
     match snd (chat ucd cfg req request w) with
     | Return j => Return (json_response 200 j)
     | Raise e => Raise e
     end).
Proof.
  intros H. unfold endpoint. rewrite H. unfold bind.
  rewrite chat_run_claude.
  destruct (run_claude cfg (chat_prompt ucd req) request w) as [t [r|e]] eqn:R;
    cbn [fst snd]; [|reflexivity].
  unfold orjson_response.
  rewrite (serialisable_chat_body r
             (run_claude_returns_scalars cfg _ request w r
                (f_equal snd R))).
  cbn. now rewrite app_nil_r.
Qed.

(** A route whose body does not validate raises before its handler. *)
Lemma endpoint_ask_invalid (b : raw_body) (errors : list verror)
    (request : Request) :
  validate_body validate_AskRequest b = Invalid errors ->
  endpoint ucd cfg (PostAsk b) request w
  = ([], Raise (RequestValidationError errors)).
Proof. intros H. unfold endpoint. now rewrite H. Qed.

Lemma endpoint_chat_invalid (b : raw_body) (errors : list verror)
    (request : Request) :
  validate_body validate_ChatRequest b = Invalid errors ->
  endpoint ucd cfg (PostChat b) request w
  = ([], Raise (RequestValidationError errors)).
Proof. intros H. unfold endpoint. now rewrite H. Qed.


Lemma endpoint_version (request : Request) :
  endpoint ucd cfg GetVersion request w
  = ([],
     if fits_64_bits (TIMEOUT cfg)
     then Return (json_response 200
                    (JDict [(py "version", JStr __version__);
                            (py "timeout", JNumber (TIMEOUT cfg));
                            (py "cors_enabled", JBool (ENABLE_CORS cfg))]))
     else Raise TypeError).
Proof.
  unfold endpoint, version, bind, ret, orjson_response.
  cbn [orjson_serialisable forallb fst snd].
  destruct (fits_64_bits (TIMEOUT cfg)); reflexivity.
Qed.

End App.

(** Setting a header and reading it back. *)
Lemma get_set_item (k v : pystr) (hs : list (pystr * pystr)) :
  get_item k (set_item k v hs) = Some v.
Proof.
  induction hs as [|[k' v'] hs IH]; simpl.
  - now rewrite eqb_refl.
  - destruct (PyStr.eqb k' k) eqn:E; simpl.
    + now rewrite eqb_refl.
    + now rewrite E.
Qed.

Lemma get_set_header (r : Response) (k v : pystr) :
  get_header (set_header r k v) k = Some v.
Proof. unfold get_header, set_header. simpl. apply get_set_item. Qed.

Lemma status_set_header (r : Response) (k v : pystr) :
  status_code (set_header r k v) = status_code r.
Proof. reflexivity. Qed.

Lemma body_set_header (r : Response) (k v : pystr) :
  body (set_header r k v) = body r.
Proof. reflexivity. Qed.

End Stack.
Import Stack.

(* ================================================================== *)
(** * Requests that reach the executor *)
(* ================================================================== *)

Module Routes.

Section Routes.
Variable ucd : UnicodeData.
Variable cfg : Config.

(** The prompt a request hands to the executor, when its body validates. *)
Definition prompt_of (op : operation) : option pystr :=
  match op with
  | PostAsk b =>
      match validate_body validate_AskRequest b with
      | Valid req => Some (prompt req)
      | Invalid _ => None
      end
  | PostChat b =>
      match validate_body validate_ChatRequest b with
      | Valid req => Some (chat_prompt ucd req)
      | Invalid _ => None
      end
  | GetHealth | GetVersion => None
  end.

(** The success document of the operation for the executor's answer. *)
Definition success_body (op : operation) (response : pystr) : json :=
  match op with
  | PostChat _ =>
      JDict [(py "success", JBool true);
             (py "message",
              JDict [(py "role", JStr (py "assistant"));
                     (py "content", JStr response)])]
  | _ => JDict [(py "success", JBool true); (py "response", JStr response)]
  end.

(** The error document of an [HTTPException] of [run_claude]. *)
Definition error_response (status : Z) (error message : pystr) (uuid4 : pystr)
  : Response :=
  set_header
    (json_response status
       (JDict [(py "detail", error_detail error message (request_id_of uuid4))]))
    (py "X-Request-ID") (request_id_of uuid4).

Definition success_response (op : operation) (response : pystr) (uuid4 : pystr)
  : Response :=
  set_header (json_response 200 (success_body op response))
    (py "X-Request-ID") (request_id_of uuid4).

Lemma endpoint_prompt (op : operation) (p : pystr) (request : Request)
    (w : World) :
  prompt_of op = Some p ->
  endpoint ucd cfg op request w
  = (fst (run_claude cfg p request w),
     match snd (run_claude cfg p request w) with
     | Return response => Return (json_response 200 (success_body op response))
     | Raise e => Raise e
     end).
Proof.
  destruct op as [b|b| |]; unfold prompt_of; try discriminate.
  - destruct (validate_body validate_AskRequest b) as [req|errs] eqn:V;
      [|discriminate].
    intros [= <-]. rewrite (endpoint_ask ucd cfg w b req request V).
    rewrite ask_run_claude.
    destruct (run_claude cfg (prompt req) request w) as [t [r|e]]; reflexivity.
  - destruct (validate_body validate_ChatRequest b) as [req|errs] eqn:V;
      [|discriminate].
    intros [= <-]. rewrite (endpoint_chat ucd cfg w b req request V).
    rewrite chat_run_claude.
    destruct (run_claude cfg (chat_prompt ucd req) request w) as [t [r|e]];
      reflexivity.
Qed.

(** The whole stack for a request that reaches the executor. *)
Lemma app_prompt (uuid4 : pystr) (op : operation) (p : pystr) (w : World) :
  prompt_of op = Some p ->
  app ucd cfg uuid4 op w
  = (log_request uuid4 op :: fst (run_claude cfg p (routed uuid4 op) w),
     match snd (run_claude cfg p (routed uuid4 op) w) with
     | Return response => success_response op response uuid4
     | Raise e => respond uuid4 (Raise e)
     end).
Proof.
  intros H. rewrite app_endpoint, (endpoint_prompt _ _ _ _ H).
  destruct (run_claude cfg p (routed uuid4 op) w) as [t [r|e]]; reflexivity.
Qed.
End Routes.

End Routes.
Import Routes.

(* ================================================================== *)
(** * Error payloads *)
(* ================================================================== *)

Module Payload.

(** The [detail] member of a JSON response. *)
Definition detail_of (r : Response) : option json :=
  match body r with
  | JsonContent (JDict members) => dict_get (py "detail") members
  | _ => None
  end.

(** A member of the [detail] dict of an error response. *)
Definition error_field (name : pystr) (r : Response) : option json :=
  match detail_of r with
  | Some (JDict members) => dict_get name members
  | _ => None
  end.

(** The machine-readable kind of an error response: its [error] member. *)
Definition error_kind (r : Response) : option pystr :=
  match error_field (py "error") r with
  | Some (JStr kind) => Some kind
  | _ => None
  end.

Lemma error_kind_error_response (status : Z) (error message uuid4 : pystr) :
  error_kind (error_response status error message uuid4) = Some error.
Proof. reflexivity. Qed.



Lemma error_kind_internal_server_error :
  error_kind internal_server_error = None.
Proof. reflexivity. Qed.

Lemma get_header_internal_server_error :
  get_header internal_server_error (py "X-Request-ID") = None.
Proof. reflexivity. Qed.

End Payload.
Import Payload.

(* ================================================================== *)
(** * Example inputs *)
(* ================================================================== *)

Module Examples.

Definition uuid0 : pystr := py "3f2b8c1e-7a4d-4e0b-9c55-0d6f1a2b3c4d".

Definition hello_body : raw_body :=
  Body (JDict [(py "prompt", JStr (py "hello"))]).

Definition hello_req : AskRequest := {| prompt := py "hello" |}.

(** The tool answers [" hi there \n"] and exits with zero. *)
Definition answering : World :=
  fun _ => Exits 0 (b_lit " hi there " ++ [Byte.x0a]) [].

(** The tool writes a byte that is not UTF-8 and exits with zero. *)
Definition garbled_stdout : World := fun _ => Exits 0 [Byte.xff] [].

(** The tool exits with one and ["boom"] on standard error. *)
Definition boom : World := fun _ => Exits 1 [] (b_lit "boom").

(** The tool exits with one and a byte that is not UTF-8 on standard error. *)
Definition garbled_stderr : World := fun _ => Exits 1 [] [Byte.xff].

(** The tool never finishes. *)
Definition sleeping : World := fun _ => Hangs.

(** The tool is not installed. *)
Definition not_installed : World := fun _ => SpawnFails FileNotFoundError.

End Examples.
Import Examples.

(* ================================================================== *)
(** * A tool that repeats its prompt *)
(* ================================================================== *)

Module Echo.

(** A run in which the tool writes its prompt argument back, as encoded, and
    exits with zero: Ask answers with the prompt, trimmed. *)
Lemma ask_echo (cfg : Config) (w : World) (req : AskRequest)
    (out err : bytes) (request : Request) :
  encode (prompt req) = Some out ->
  w (claude_argv (prompt req)) = Exits 0 out err ->
  snd (ask cfg req request w)
  = Return (JDict [(py "success", JBool true);
                   (py "response", JStr (strip (prompt req)))]).
Proof.
  intros E H. apply decode_encode in E.
  rewrite ask_run_claude.
  now rewrite (run_claude_zero cfg (prompt req) request w out err _ H E).
Qed.

End Echo.
Import Echo.

(* ================================================================== *)
(** * The executor's contract *)
(* ================================================================== *)

(** C1, as stated, fails: the tool exits with zero but what it wrote is not
    UTF-8; [stdout.decode()] raises, [ask] returns nothing and the client
    gets the bare 500. *)
Lemma ask_zero_exit_undecodable_stdout :
  garbled_stdout (claude_argv (prompt hello_req)) = Exits 0 [Byte.xff] []
  /\ (forall request,
        snd (ask default_config hello_req request garbled_stdout)
        = Raise UnicodeDecodeError)
  /\ snd (app ascii_only default_config uuid0 (PostAsk hello_body) garbled_stdout)
     = internal_server_error.
Proof. repeat split. Qed.

(** C1 (amended). For every prompt, when the tool exits with code zero and
    its standard output is valid UTF-8, Ask returns
    [{success: true, response: r}] where [r] is that output decoded and
    trimmed: the decoded text is [r] between two runs of whitespace, and [r]
    neither starts nor ends with whitespace. *)
Theorem ask_returns_trimmed_stdout
    (ucd : UnicodeData) (cfg : Config) (uuid4 : pystr) (w : World)
    (b : raw_body) (req : AskRequest) (out err : bytes) (text : pystr) :
  validate_body validate_AskRequest b = Valid req ->
  w (claude_argv (prompt req)) = Exits 0 out err ->
  decode out = Some text ->
  (forall request,
     snd (ask cfg req request w)
     = Return (JDict [(py "success", JBool true);
                      (py "response", JStr (strip text))]))
  /\ snd (app ucd cfg uuid4 (PostAsk b) w)
     = set_header
         (json_response 200
            (JDict [(py "success", JBool true);
                    (py "response", JStr (strip text))]))
         (py "X-Request-ID") (request_id_of uuid4)
  /\ trimmed_of text (strip text).
Proof.
  intros V H D. repeat split.
  - intros request. rewrite ask_run_claude.
    now rewrite (run_claude_zero cfg (prompt req) request w out err text H D).
  - assert (P : prompt_of ucd (PostAsk b) = Some (prompt req))
      by (unfold prompt_of; now rewrite V).
    rewrite (app_prompt ucd cfg uuid4 _ _ w P).
    now rewrite (run_claude_zero cfg _ _ w out err text H D).
  - apply strip_trimmed.
  - apply strip_trimmed.
  - apply strip_trimmed.
Qed.

Lemma ask_returns_trimmed_stdout_witness :
  (forall request,
     snd (ask default_config hello_req request answering)
     = Return (JDict [(py "success", JBool true);
                      (py "response", JStr (strip (py " hi there " ++ NL)))]))
  /\ snd (app ascii_only default_config uuid0 (PostAsk hello_body) answering)
     = set_header
         (json_response 200
            (JDict [(py "success", JBool true);
                    (py "response", JStr (strip (py " hi there " ++ NL)))]))
         (py "X-Request-ID") (request_id_of uuid0)
  /\ trimmed_of (py " hi there " ++ NL) (strip (py " hi there " ++ NL)).
Proof.
  exact (ask_returns_trimmed_stdout ascii_only default_config uuid0 answering
           hello_body hello_req (b_lit " hi there " ++ [Byte.x0a]) []
           (py " hi there " ++ NL) eq_refl eq_refl eq_refl).
Defined.

(** C2, as stated, fails: the tool exits with one but its standard error is
    not UTF-8; [stderr.decode()] raises, no [cli_error] is produced and the
    client gets the bare 500. *)
Lemma nonzero_exit_undecodable_stderr :
  garbled_stderr (claude_argv (py "hello")) = Exits 1 [] [Byte.xff]
  /\ (forall request,
        snd (run_claude default_config (py "hello") request garbled_stderr)
        = Raise UnicodeDecodeError)
  /\ snd (app ascii_only default_config uuid0 (PostAsk hello_body) garbled_stderr)
     = internal_server_error.
Proof. repeat split. Qed.

(** C2 (amended). For every request, when the tool exits with a non-zero
    code and its standard error is valid UTF-8, the operation fails with the
    [cli_error] kind (status 500) whose message is the trimmed standard-error
    text, or, when that is empty, the generic non-empty message
    "Claude CLI returned non-zero exit code"; the payload carries the kind,
    the message and the request id. *)
Theorem nonzero_exit_is_cli_error
    (ucd : UnicodeData) (cfg : Config) (uuid4 : pystr) (w : World)
    (op : operation) (p : pystr) (rc : Z) (out err : bytes) (text : pystr) :
  prompt_of ucd op = Some p ->
  w (claude_argv p) = Exits rc out err ->
  rc <> 0%Z ->
  decode err = Some text ->
  exists message,
    (strip text <> [] -> message = strip text)
    /\ (strip text = [] ->
        message = py "Claude CLI returned non-zero exit code")
    /\ message <> []
    /\ (forall request,
          snd (run_claude cfg p request w)
          = Raise (HTTPException 500
                     (JDict [(py "error", JStr (py "cli_error"));
                             (py "message", JStr message);
                             (py "request_id",
                              JStr (getattr_request_id request
                                      (py "unknown")))])))
    /\ snd (app ucd cfg uuid4 op w)
       = set_header
           (json_response 500
              (JDict [(py "detail",
                       JDict [(py "error", JStr (py "cli_error"));
                              (py "message", JStr message);
                              (py "request_id", JStr (firstn 8 uuid4))])]))
           (py "X-Request-ID") (firstn 8 uuid4)
    /\ status_code (snd (app ucd cfg uuid4 op w)) = 500%Z
    /\ error_kind (snd (app ucd cfg uuid4 op w)) = Some (py "cli_error")
    /\ error_field (py "message") (snd (app ucd cfg uuid4 op w))
       = Some (JStr message)
    /\ error_field (py "request_id") (snd (app ucd cfg uuid4 op w))
       = Some (JStr (firstn 8 uuid4)).
Proof.
  intros P H Hrc D. exists (cli_error_message text).
  assert (A : snd (app ucd cfg uuid4 op w)
     = set_header
         (json_response 500
            (JDict [(py "detail",
                     JDict [(py "error", JStr (py "cli_error"));
                            (py "message", JStr (cli_error_message text));
                            (py "request_id", JStr (firstn 8 uuid4))])]))
         (py "X-Request-ID") (firstn 8 uuid4)).
  { rewrite (app_prompt ucd cfg uuid4 _ _ w P).
    now rewrite (run_claude_nonzero cfg p _ w rc out err text H Hrc D). }
  split; [|split; [|split; [|split; [|split]]]].
  - unfold cli_error_message, py_or.
    destruct (strip text); [congruence | reflexivity].
  - unfold cli_error_message, py_or. now intros ->.
  - unfold cli_error_message, py_or.
    destruct (strip text); cbn [truthy]; discriminate.
  - intros request.
    now rewrite (run_claude_nonzero cfg p request w rc out err text H Hrc D).
  - exact A.
  - rewrite A. repeat split.
Qed.

Lemma nonzero_exit_is_cli_error_witness :
  exists message,
    (strip (py "boom") <> [] -> message = strip (py "boom"))
    /\ (strip (py "boom") = [] ->
        message = py "Claude CLI returned non-zero exit code")
    /\ message <> []
    /\ (forall request,
          snd (run_claude default_config (py "hello") request boom)
          = Raise (HTTPException 500
                     (JDict [(py "error", JStr (py "cli_error"));
                             (py "message", JStr message);
                             (py "request_id",
                              JStr (getattr_request_id request
                                      (py "unknown")))])))
    /\ snd (app ascii_only default_config uuid0 (PostAsk hello_body) boom)
       = set_header
           (json_response 500
              (JDict [(py "detail",
                       JDict [(py "error", JStr (py "cli_error"));
                              (py "message", JStr message);
                              (py "request_id", JStr (firstn 8 uuid0))])]))
           (py "X-Request-ID") (firstn 8 uuid0)
    /\ status_code
         (snd (app ascii_only default_config uuid0 (PostAsk hello_body) boom))
       = 500%Z
    /\ error_kind
         (snd (app ascii_only default_config uuid0 (PostAsk hello_body) boom))
       = Some (py "cli_error")
    /\ error_field (py "message")
         (snd (app ascii_only default_config uuid0 (PostAsk hello_body) boom))
       = Some (JStr message)
    /\ error_field (py "request_id")
         (snd (app ascii_only default_config uuid0 (PostAsk hello_body) boom))
       = Some (JStr (firstn 8 uuid0)).
Proof.
  apply (nonzero_exit_is_cli_error ascii_only default_config uuid0 boom
           (PostAsk hello_body) (py "hello") 1%Z [] (b_lit "boom") (py "boom"));
    [reflexivity | reflexivity | discriminate | reflexivity].
Defined.

(** The spec's example, standard error ["boom"] with exit code 1, through
    the whole stack. *)
Example cli_error_boom :
  error_kind
    (snd (app ascii_only default_config uuid0 (PostAsk hello_body) boom))
  = Some (py "cli_error")
  /\ error_field (py "message")
       (snd (app ascii_only default_config uuid0 (PostAsk hello_body) boom))
     = Some (JStr (py "boom")).
Proof. split; reflexivity. Qed.

(** The message of the spec's example: standard error ["boom"]. *)
Example cli_error_message_boom : cli_error_message (py "boom") = py "boom".
Proof. reflexivity. Qed.

(** C3. For every request whose tool does not finish within the configured
    timeout, the operation starts the tool, kills it, and fails with the
    [timeout] kind: status 504, a payload with the kind, a message that
    spells out the configured timeout in decimal (so that the value can be
    read back from it) and the request id, and the request id in the
    header. *)
Theorem timeout_kills_and_fails
    (ucd : UnicodeData) (cfg : Config) (uuid4 : pystr) (w : World)
    (op : operation) (p : pystr) :
  prompt_of ucd op = Some p ->
  w (claude_argv p) = Hangs ->
  exists digits : string,
    option_map Z.of_int (NilZero.int_of_string digits) = Some (TIMEOUT cfg)
    /\ (forall request,
          run_claude cfg p request w
          = ([log_running request p; Exec [py "claude"; py "-p"; p];
              Kill [py "claude"; py "-p"; p]; log_timed_out cfg request],
             Raise (HTTPException 504
                      (JDict [(py "error", JStr (py "timeout"));
                              (py "message",
                               JStr (py "Request timed out after "
                                     ++ py digits ++ py " seconds"));
                              (py "request_id",
                               JStr (getattr_request_id request
                                       (py "unknown")))]))))
    /\ app ucd cfg uuid4 op w
       = ([log_request uuid4 op; log_running (routed uuid4 op) p;
           Exec [py "claude"; py "-p"; p]; Kill [py "claude"; py "-p"; p];
           log_timed_out cfg (routed uuid4 op)],
          set_header
            (json_response 504
               (JDict [(py "detail",
                        JDict [(py "error", JStr (py "timeout"));
                               (py "message",
                                JStr (py "Request timed out after "
                                      ++ py digits ++ py " seconds"));
                               (py "request_id", JStr (firstn 8 uuid4))])]))
            (py "X-Request-ID") (firstn 8 uuid4))
    /\ status_code (snd (app ucd cfg uuid4 op w)) = 504%Z
    /\ get_header (snd (app ucd cfg uuid4 op w)) (py "X-Request-ID")
       = Some (firstn 8 uuid4)
    /\ error_kind (snd (app ucd cfg uuid4 op w)) = Some (py "timeout")
    /\ error_field (py "message") (snd (app ucd cfg uuid4 op w))
       = Some (JStr (py "Request timed out after " ++ py digits
                     ++ py " seconds"))
    /\ error_field (py "request_id") (snd (app ucd cfg uuid4 op w))
       = Some (JStr (firstn 8 uuid4)).
Proof.
  intros P H.
  exists (NilZero.string_of_int (Z.to_int (TIMEOUT cfg))).
  fold (str_of_int (TIMEOUT cfg)).
  assert (A : app ucd cfg uuid4 op w
     = ([log_request uuid4 op; log_running (routed uuid4 op) p;
         Exec (claude_argv p); Kill (claude_argv p);
         log_timed_out cfg (routed uuid4 op)],
        error_response 504 (py "timeout") (timeout_message cfg) uuid4)).
  { rewrite (app_prompt ucd cfg uuid4 _ _ w P).
    now rewrite (run_claude_hangs cfg p _ w H). }
  split; [|split; [|split]].
  - destruct (to_int_proper (TIMEOUT cfg)) as [N1 N2].
    rewrite (NilZero.isi _ N1 N2). cbn [option_map].
    now rewrite DecimalZ.of_to.
  - intros request. exact (run_claude_hangs cfg p request w H).
  - exact A.
  - rewrite A. cbn [snd]. repeat split.
Qed.

Lemma timeout_kills_and_fails_witness :
  exists digits : string,
    option_map Z.of_int (NilZero.int_of_string digits) = Some 120%Z
    /\ (forall request,
          run_claude default_config (py "hello") request sleeping
          = ([log_running request (py "hello");
              Exec [py "claude"; py "-p"; py "hello"];
              Kill [py "claude"; py "-p"; py "hello"];
              log_timed_out default_config request],
             Raise (HTTPException 504
                      (JDict [(py "error", JStr (py "timeout"));
                              (py "message",
                               JStr (py "Request timed out after "
                                     ++ py digits ++ py " seconds"));
                              (py "request_id",
                               JStr (getattr_request_id request
                                       (py "unknown")))]))))
    /\ app ascii_only default_config uuid0 (PostAsk hello_body) sleeping
       = ([log_request uuid0 (PostAsk hello_body);
           log_running (routed uuid0 (PostAsk hello_body)) (py "hello");
           Exec [py "claude"; py "-p"; py "hello"];
           Kill [py "claude"; py "-p"; py "hello"];
           log_timed_out default_config (routed uuid0 (PostAsk hello_body))],
          set_header
            (json_response 504
               (JDict [(py "detail",
                        JDict [(py "error", JStr (py "timeout"));
                               (py "message",
                                JStr (py "Request timed out after "
                                      ++ py digits ++ py " seconds"));
                               (py "request_id", JStr (firstn 8 uuid0))])]))
            (py "X-Request-ID") (firstn 8 uuid0))
    /\ status_code
         (snd (app ascii_only default_config uuid0 (PostAsk hello_body)
                 sleeping)) = 504%Z
    /\ get_header
         (snd (app ascii_only default_config uuid0 (PostAsk hello_body)
                 sleeping)) (py "X-Request-ID")
       = Some (firstn 8 uuid0)
    /\ error_kind
         (snd (app ascii_only default_config uuid0 (PostAsk hello_body)
                 sleeping)) = Some (py "timeout")
    /\ error_field (py "message")
         (snd (app ascii_only default_config uuid0 (PostAsk hello_body)
                 sleeping))
       = Some (JStr (py "Request timed out after " ++ py digits
                     ++ py " seconds"))
    /\ error_field (py "request_id")
         (snd (app ascii_only default_config uuid0 (PostAsk hello_body)
                 sleeping))
       = Some (JStr (firstn 8 uuid0)).
Proof.
  exact (timeout_kills_and_fails ascii_only default_config uuid0 sleeping
           (PostAsk hello_body) (py "hello") eq_refl eq_refl).
Defined.

(** The example through the whole stack: the message of the default
    configuration. *)
Example timeout_message_120 :
  error_field (py "message")
    (snd (app ascii_only default_config uuid0 (PostAsk hello_body) sleeping))
  = Some (JStr (py "Request timed out after 120 seconds")).
Proof. reflexivity. Qed.

(* ================================================================== *)
(** * Prompt assembly *)
(* ================================================================== *)

Module Assembly.

Lemma fold_left_append {A B} (f : A -> B) (l : list A) (init : list B) :
  fold_left (fun parts x => parts ++ [f x]) l init = init ++ map f l.
Proof.
  revert init. induction l as [|x l IH]; intros init; simpl.
  - now rewrite app_nil_r.
  - now rewrite IH, <- app_assoc.
Qed.

(** The parts are the system part, if any, then one line per message, in
    order. *)
Lemma prompt_parts_map (ucd : UnicodeData) (req : ChatRequest) :
  prompt_parts ucd req
  = (if truthy (system req) then [py "System: " ++ system req ++ NL] else [])
    ++ map (message_line ucd) (messages req).
Proof.
  unfold prompt_parts. rewrite fold_left_append.
  now destruct (truthy (system req)).
Qed.

Lemma join_cons (sep p : pystr) (q : pystr) (rest : list pystr) :
  join sep (p :: q :: rest) = p ++ sep ++ join sep (q :: rest).
Proof. reflexivity. Qed.

(** With a system instruction and at least one message, the prompt is the
    system part, which ends with a newline, the joining newline, and the
    joined message lines. *)
Lemma chat_prompt_with_system (ucd : UnicodeData) (sys : pystr)
    (m : Message) (ms : list Message) :
  sys <> [] ->
  chat_prompt ucd {| messages := m :: ms; system := sys |}
  = py "System: " ++ sys ++ NL ++ NL
    ++ join NL (map (message_line ucd) (m :: ms)).
Proof.
  intros Hs. unfold chat_prompt. rewrite prompt_parts_map.
  cbn [system messages map].
  assert (T : truthy sys = true) by (destruct sys; [congruence | reflexivity]).
  rewrite T.
  change ([py "System: " ++ sys ++ NL]
          ++ message_line ucd m :: map (message_line ucd) ms)
    with ((py "System: " ++ sys ++ NL)
          :: message_line ucd m :: map (message_line ucd) ms).
  rewrite join_cons. now rewrite <- !app_assoc.
Qed.

(** Without a system instruction the prompt is the joined message lines. *)
Lemma chat_prompt_without_system (ucd : UnicodeData) (ms : list Message) :
  chat_prompt ucd {| messages := ms; system := [] |}
  = join NL (map (message_line ucd) ms).
Proof. unfold chat_prompt. now rewrite prompt_parts_map. Qed.

(** What the spec's words say of a role: only the first character changes. *)
Definition first_upper_rest_unchanged (ucd : UnicodeData) (role : pystr) : pystr :=
  match role with
  | [] => []
  | c :: rest => to_title_full ucd c ++ rest
  end.

Definition spec_message_line (ucd : UnicodeData) (msg : Message) : pystr :=
  first_upper_rest_unchanged ucd (role msg) ++ py ": " ++ content msg.

End Assembly.
Import Assembly.

Module AssemblyExamples.

(** [messages=[{role:"user", content:"Hi"}], system="Be nice"] *)
Definition be_nice : ChatRequest :=
  {| messages := [{| role := py "user"; content := py "Hi" |}];
     system := py "Be nice" |}.

Definition shouting : Message := {| role := py "uSER"; content := py "Hi" |}.

End AssemblyExamples.
Import AssemblyExamples.

(** C4, as stated, fails: whatever the case tables, the prompt of the
    example is not ["System: Be nice\nUser: Hi"]. *)
Lemma chat_prompt_be_nice_is_not_single_newline :
  ~ exists ucd,
      chat_prompt ucd be_nice = py "System: Be nice" ++ NL ++ py "User: Hi".
Proof. intros [ucd H]. vm_compute in H. discriminate H. Qed.

(** C4 (amended). Prompt assembly applied to
    [messages=[{role:"user", content:"Hi"}]] with [system="Be nice"] gives
    exactly ["System: Be nice\n\nUser: Hi"]: the system part carries its own
    newline and the parts are joined with one more, so an empty line
    separates the system line from the first message; there is no trailing
    newline. *)
Theorem chat_prompt_be_nice (ucd : UnicodeData) :
  chat_prompt ucd be_nice
  = py "System: Be nice" ++ NL ++ NL ++ py "User: Hi".
Proof.
  unfold be_nice.
  rewrite chat_prompt_with_system by discriminate.
  cbn [map join]. unfold message_line. cbn [role content].
  rewrite (capitalize_ascii ucd 117 (py "ser") eq_refl
           : capitalize ucd (py "user") = py "User").
  reflexivity.
Qed.

(** C5, as stated, fails: for no case tables does every line keep the rest of
    the role unchanged; the role ["uSER"] is rendered ["User"], where the
    claim has ["USER"]. *)
Lemma message_line_changes_rest_of_role :
  ~ exists ucd, forall msg, message_line ucd msg = spec_message_line ucd msg.
Proof.
  intros [ucd H]. specialize (H shouting). vm_compute in H. discriminate H.
Qed.

Example message_line_shouting (ucd : UnicodeData) :
  message_line ucd shouting = py "User: Hi"
  /\ spec_message_line ucd shouting = py "USER: Hi".
Proof. split; reflexivity. Qed.

(** C5 (amended). For every conversation message, prompt assembly renders it
    as ["<Role>: <content>"] where Role is [role.capitalize()]: the first
    character title-cased and every later character lower-cased (on an ASCII
    role: the first letter upper-cased, the other letters lower-cased); when
    the role is empty the line is [": <content>"]. *)
Theorem message_line_capitalizes (ucd : UnicodeData) (msg : Message) :
  message_line ucd msg = capitalize ucd (role msg) ++ py ": " ++ content msg
  /\ (role msg = [] -> message_line ucd msg = py ": " ++ content msg)
  /\ (forall c rest,
        role msg = c :: rest ->
        capitalize ucd (role msg)
        = to_title_full ucd c ++ lower_from ucd (role msg) 1 rest)
  /\ (forall c rest,
        role msg = c :: rest ->
        forallb is_ascii (c :: rest) = true ->
        message_line ucd msg
        = (ascii_upper c :: map ascii_lower rest) ++ py ": " ++ content msg).
Proof.
  repeat split.
  - intros H. unfold message_line. now rewrite H.
  - intros c rest H. now rewrite H.
  - intros c rest H A. unfold message_line.
    now rewrite H, (capitalize_ascii ucd c rest A).
Qed.

Lemma message_line_capitalizes_witness :
  message_line ascii_only shouting
  = (ascii_upper 117 :: map ascii_lower (py "SER")) ++ py ": " ++ py "Hi".
Proof.
  exact (proj2 (proj2 (proj2 (message_line_capitalizes ascii_only shouting)))
           117 (py "SER") eq_refl eq_refl).
Defined.

(** C10. In a Chat request, a message object without a [role] member is
    accepted, with the role ["user"]: it validates to the same message as
    the object with [role: "user"] written out, so its prompt line, ["User: "]
    and the content, is the same; a conversation of one such message is a
    valid request. *)
Theorem message_without_role_defaults_to_user
    (ucd : UnicodeData) (at_ : list loc_item)
    (members : list (pystr * json)) (c : pystr) :
  dict_get (py "role") members = None ->
  dict_get (py "content") members = Some (JStr c) ->
  validate_Message at_ (JDict members)
  = Valid {| role := py "user"; content := c |}
  /\ validate_Message at_ (JDict ((py "role", JStr (py "user")) :: members))
     = Valid {| role := py "user"; content := c |}
  /\ message_line ucd {| role := py "user"; content := c |} = py "User: " ++ c
  /\ validate_body validate_ChatRequest
       (Body (JDict [(py "messages", JList [JDict members])]))
     = Valid {| messages := [{| role := py "user"; content := c |}];
                system := [] |}.
Proof.
  intros Hr Hc.
  assert (V : validate_Message at_ (JDict members)
              = Valid {| role := py "user"; content := c |}).
  { unfold validate_Message, with_default, required. now rewrite Hr, Hc. }
  repeat split.
  - exact V.
  - unfold validate_Message, with_default, required.
    cbn [dict_get]. rewrite Hr, Hc. reflexivity.
  - cbn [validate_body validate_ChatRequest].
    unfold required, with_default. cbn [dict_get].
    change (PyStr.eqb (py "messages") (py "messages")) with true.
    change (PyStr.eqb (py "system") (py "messages")) with false.
    cbn [validate_messages validate_items].
    unfold validate_Message, with_default, required. now rewrite Hr, Hc.
Qed.

Lemma message_without_role_defaults_to_user_witness :
  validate_Message [Key (py "body")] (JDict [(py "content", JStr (py "Hi"))])
  = Valid {| role := py "user"; content := py "Hi" |}.
Proof.
  exact (proj1 (message_without_role_defaults_to_user ascii_only
                  [Key (py "body")] [(py "content", JStr (py "Hi"))] (py "Hi")
                  eq_refl eq_refl)).
Defined.

(** C6, as stated, fails: the tool is not installed; [run_claude] raises the
    operating system's error as it is, and the response is the bare 500,
    which has no error kind at all. *)
Lemma spawn_failure_has_no_error_kind :
  not_installed (claude_argv (py "hello")) = SpawnFails FileNotFoundError
  /\ (forall request,
        snd (run_claude default_config (py "hello") request not_installed)
        = Raise (OSError FileNotFoundError))
  /\ snd (app ascii_only default_config uuid0 (PostAsk hello_body) not_installed)
     = internal_server_error
  /\ error_kind
       (snd (app ascii_only default_config uuid0 (PostAsk hello_body)
               not_installed))
     = None.
Proof. repeat split. Qed.

(** C6 (amended). For every request for which the tool cannot be started,
    the operation fails with the operating system's exception itself, which
    nothing handles: nothing is killed, and the response is the bare 500
    "Internal Server Error", without an error kind.  It differs from the
    response to a non-zero exit with readable standard error, whose kind is
    [cli_error]. *)
Theorem spawn_failure_propagates
    (ucd : UnicodeData) (cfg : Config) (uuid4 : pystr) (w : World)
    (op : operation) (p : pystr) (e : spawn_error) :
  prompt_of ucd op = Some p ->
  w (claude_argv p) = SpawnFails e ->
  (forall request,
     run_claude cfg p request w
     = ([log_running request p; Exec (claude_argv p)], Raise (OSError e)))
  /\ snd (app ucd cfg uuid4 op w) = internal_server_error
  /\ error_kind (snd (app ucd cfg uuid4 op w)) = None
  /\ (forall w' rc out err text,
        w' (claude_argv p) = Exits rc out err ->
        rc <> 0%Z ->
        decode err = Some text ->
        error_kind (snd (app ucd cfg uuid4 op w')) = Some (py "cli_error")
        /\ snd (app ucd cfg uuid4 op w') <> snd (app ucd cfg uuid4 op w)).
Proof.
  intros P H.
  assert (A : snd (app ucd cfg uuid4 op w) = internal_server_error).
  { rewrite (app_prompt ucd cfg uuid4 _ _ w P).
    now rewrite (run_claude_spawn_fails cfg p _ w e H). }
  split; [|split; [|split]].
  - intros request. exact (run_claude_spawn_fails cfg p request w e H).
  - exact A.
  - now rewrite A.
  - intros w' rc out err text H' Hrc D.
    assert (B : snd (app ucd cfg uuid4 op w')
                = error_response 500 (py "cli_error") (cli_error_message text)
                    uuid4).
    { rewrite (app_prompt ucd cfg uuid4 _ _ w' P).
      now rewrite (run_claude_nonzero cfg p _ w' rc out err text H' Hrc D). }
    split.
    + rewrite B. apply error_kind_error_response.
    + rewrite A, B. intros E.
      apply (f_equal status_code) in E as E1.
      apply (f_equal error_kind) in E. discriminate E.
Qed.

Lemma spawn_failure_propagates_witness :
  snd (app ascii_only default_config uuid0 (PostAsk hello_body) not_installed)
  = internal_server_error.
Proof.
  exact (proj1 (proj2
    (spawn_failure_propagates ascii_only default_config uuid0 not_installed
       (PostAsk hello_body) (py "hello") FileNotFoundError eq_refl eq_refl))).
Defined.

(* ================================================================== *)
(** * Malformed bodies *)
(* ================================================================== *)

Module Malformed.



















End Malformed.
Import Malformed.



(** C8. Health returns [{status: "ok"}] on every invocation, whatever the
    external executable would do, and starts no subprocess: the handler has
    no effect at all, and the only event of the whole request is the
    middleware's log line. *)
Theorem health_always_ok
    (ucd : UnicodeData) (cfg : Config) (uuid4 : pystr) (w : World) :
  health w = ([], Return (JDict [(py "status", JStr (py "ok"))]))
  /\ app ucd cfg uuid4 GetHealth w
     = ([log_request uuid4 GetHealth],
        set_header (json_response 200 (JDict [(py "status", JStr (py "ok"))]))
          (py "X-Request-ID") (request_id_of uuid4))
  /\ status_code (snd (app ucd cfg uuid4 GetHealth w)) = 200%Z
  /\ body (snd (app ucd cfg uuid4 GetHealth w))
     = JsonContent (JDict [(py "status", JStr (py "ok"))])
  /\ (forall argv, ~ In (Exec argv) (fst (app ucd cfg uuid4 GetHealth w))).
Proof.
  assert (A : app ucd cfg uuid4 GetHealth w
     = ([log_request uuid4 GetHealth],
        set_header (json_response 200 (JDict [(py "status", JStr (py "ok"))]))
          (py "X-Request-ID") (request_id_of uuid4))).
  { now rewrite app_endpoint. }
  rewrite A. repeat split.
  intros argv [E|[]]. discriminate E.
Qed.

(* ================================================================== *)
(** * The correlation identifier *)
(* ================================================================== *)

Module Correlation.






Section Classify.
Variable ucd : UnicodeData.
Variable cfg : Config.
Variable uuid4 : pystr.



End Classify.

End Correlation.
Import Correlation.



(* ================================================================== *)
(** * What a request does: subprocesses, kills and log lines *)
(* ================================================================== *)

Module Traces.

(** The argument vectors of the subprocesses a trace starts, in order. *)
Fixpoint execs (t : list event) : list (list pystr) :=
  match t with
  | [] => []
  | Exec argv :: rest => argv :: execs rest
  | _ :: rest => execs rest
  end.

(** The argument vectors of the subprocesses a trace kills, in order. *)
Fixpoint kills (t : list event) : list (list pystr) :=
  match t with
  | [] => []
  | Kill argv :: rest => argv :: kills rest
  | _ :: rest => kills rest
  end.

(** What [run_claude] does after it has started the tool, by what the tool
    does. *)
Definition after_start (cfg : Config) (request : Request) (p : pystr)
    (b : proc_behaviour) : list event :=
  match b with
  | SpawnFails _ => []
  | Hangs => [Kill (claude_argv p); log_timed_out cfg request]
  | Exits rc out err =>
      if (rc =? 0)%Z then
        match decode out with
        | Some text => [log_response request (strip text)]
        | None => []
        end
      else
        match decode err with
        | Some text => [log_cli_error request (cli_error_message text)]
        | None => []
        end
  end.

Lemma run_claude_trace (cfg : Config) (p : pystr) (request : Request)
    (w : World) :
  fst (run_claude cfg p request w)
  = log_running request p :: Exec (claude_argv p)
    :: after_start cfg request p (w (claude_argv p)).
Proof.
  destruct (w (claude_argv p)) as [e| |rc out err] eqn:H.
  - now rewrite (run_claude_spawn_fails cfg p request w e H).
  - now rewrite (run_claude_hangs cfg p request w H).
  - unfold after_start. destruct (Z.eq_dec rc 0) as [->|Hrc].
    + cbn [Z.eqb]. destruct (decode out) as [text|] eqn:D.
      * now rewrite (run_claude_zero cfg p request w out err text H D).
      * now rewrite (run_claude_zero_undecodable cfg p request w out err H D).
    + apply Z.eqb_neq in Hrc as Hb. rewrite Hb.
      destruct (decode err) as [text|] eqn:D.
      * now rewrite (run_claude_nonzero cfg p request w rc out err text H Hrc D).
      * now rewrite (run_claude_nonzero_undecodable cfg p request w rc out err
                       H Hrc D).
Qed.

Section AppTrace.
Variable ucd : UnicodeData.
Variable cfg : Config.
Variable uuid4 : pystr.

(** The trace of a request that reaches the executor. *)
Lemma app_trace_prompt (op : operation) (p : pystr) (w : World) :
  prompt_of ucd op = Some p ->
  fst (app ucd cfg uuid4 op w)
  = log_request uuid4 op :: log_running (routed uuid4 op) p
    :: Exec (claude_argv p)
    :: after_start cfg (routed uuid4 op) p (w (claude_argv p)).
Proof.
  intros P. rewrite (app_prompt ucd cfg uuid4 op p w P). cbn [fst].
  now rewrite run_claude_trace.
Qed.

(** The trace of a request that does not reach the executor. *)
Lemma app_trace_no_prompt (op : operation) (w : World) :
  prompt_of ucd op = None ->
  fst (app ucd cfg uuid4 op w) = [log_request uuid4 op].
Proof.
  intros P. rewrite app_endpoint. cbn [fst].
  destruct op as [b|b| |]; unfold prompt_of in P.
  - destruct (validate_body validate_AskRequest b) as [req|errors] eqn:V;
      [discriminate|].
    now rewrite (endpoint_ask_invalid ucd cfg w b errors _ V).
  - destruct (validate_body validate_ChatRequest b) as [req|errors] eqn:V;
      [discriminate|].
    now rewrite (endpoint_chat_invalid ucd cfg w b errors _ V).
  - reflexivity.
  - now rewrite endpoint_version.
Qed.

Lemma execs_after_start (request : Request) (p : pystr) (b : proc_behaviour) :
  execs (after_start cfg request p b) = [].
Proof.
  destruct b as [e| |rc out err]; cbn; try reflexivity.
  destruct (rc =? 0)%Z; [destruct (decode out) | destruct (decode err)];
    reflexivity.
Qed.

Lemma kills_after_start (request : Request) (p : pystr) (b : proc_behaviour) :
  kills (after_start cfg request p b)
  = match b with Hangs => [claude_argv p] | _ => [] end.
Proof.
  destruct b as [e| |rc out err]; cbn; try reflexivity.
  destruct (rc =? 0)%Z; [destruct (decode out) | destruct (decode err)];
    reflexivity.
Qed.
End AppTrace.

End Traces.
Import Traces.

(** X1. A request starts the tool exactly once when its body validates
    (Ask, Chat) and not at all otherwise (a rejected body, Health, Version);
    the argument vector is always the three words [claude], [-p] and the
    whole prompt, whatever the prompt contains. *)
Theorem one_subprocess_per_request
    (ucd : UnicodeData) (cfg : Config) (uuid4 : pystr) (op : operation)
    (w : World) :
  execs (fst (app ucd cfg uuid4 op w))
  = match prompt_of ucd op with
    | Some p => [[py "claude"; py "-p"; p]]
    | None => []
    end.
Proof.
  destruct (prompt_of ucd op) as [p|] eqn:P.
  - rewrite (app_trace_prompt ucd cfg uuid4 op p w P).
    cbn [execs log_request log_running].
    now rewrite execs_after_start.
  - now rewrite (app_trace_no_prompt ucd cfg uuid4 op w P).
Qed.

(** X2. A request kills a subprocess exactly when the tool it started is
    still running at the timeout, and then it kills that one process, once;
    in every other case (exit with any code, failed start, rejected body)
    nothing is killed. *)
Theorem kill_only_on_timeout
    (ucd : UnicodeData) (cfg : Config) (uuid4 : pystr) (op : operation)
    (w : World) :
  kills (fst (app ucd cfg uuid4 op w))
  = match prompt_of ucd op with
    | Some p =>
        match w (claude_argv p) with
        | Hangs => [claude_argv p]
        | _ => []
        end
    | None => []
    end.
Proof.
  destruct (prompt_of ucd op) as [p|] eqn:P.
  - rewrite (app_trace_prompt ucd cfg uuid4 op p w P).
    cbn [kills log_request log_running].
    now rewrite kills_after_start.
  - now rewrite (app_trace_no_prompt ucd cfg uuid4 op w P).
Qed.

(** X3. Every line a request logs, in the middleware and in the executor,
    on success and on failure, begins with the request's identifier in
    square brackets: the identifier that the response carries. *)
Theorem log_lines_carry_request_id
    (ucd : UnicodeData) (cfg : Config) (uuid4 : pystr) (op : operation)
    (w : World) (level : log_level) (msg : pystr) :
  In (Log level msg) (fst (app ucd cfg uuid4 op w)) ->
  exists rest, msg = py "[" ++ request_id_of uuid4 ++ py "] " ++ rest.
Proof.
  assert (R : In (Log level msg) [log_request uuid4 op] ->
              exists rest, msg = py "[" ++ request_id_of uuid4 ++ py "] " ++ rest).
  { intros [E|[]]. injection E as _ <-. eexists. reflexivity. }
  destruct (prompt_of ucd op) as [p|] eqn:P.
  - rewrite (app_trace_prompt ucd cfg uuid4 op p w P).
    intros [E|[E|[E|I]]].
    + apply R. now left.
    + injection E as _ <-. rewrite rid_of_routed.
      exists (py "Running Claude CLI (prompt length: "
              ++ str_of_int (len p) ++ py " chars)").
      reflexivity.
    + discriminate E.
    + unfold after_start in I.
      destruct (w (claude_argv p)) as [e| |rc out err].
      * destruct I.
      * destruct I as [E|[E|[]]]; [discriminate E|].
        injection E as _ <-. rewrite rid_of_routed.
        exists (py "Request timed out after " ++ str_of_int (TIMEOUT cfg)
                ++ py "s").
        reflexivity.
      * destruct (rc =? 0)%Z.
        -- destruct (decode out) as [text|]; [|destruct I].
           destruct I as [E|[]]. injection E as _ <-. rewrite rid_of_routed.
           exists (py "Claude CLI response (length: "
                   ++ str_of_int (len (strip text)) ++ py " chars)").
           reflexivity.
        -- destruct (decode err) as [text|]; [|destruct I].
           destruct I as [E|[]]. injection E as _ <-. rewrite rid_of_routed.
           exists (py "Claude CLI error: " ++ cli_error_message text).
           reflexivity.
  - rewrite (app_trace_no_prompt ucd cfg uuid4 op w P). exact R.
Qed.

Lemma log_lines_carry_request_id_witness :
  exists rest,
    py "[3f2b8c1e] POST /ask" = py "[" ++ request_id_of uuid0 ++ py "] " ++ rest.
Proof.
  exact (log_lines_carry_request_id ascii_only default_config uuid0
           (PostAsk hello_body) answering DEBUG (py "[3f2b8c1e] POST /ask")
           (or_introl eq_refl)).
Defined.

(* ================================================================== *)
(** * Status codes *)
(* ================================================================== *)

Module Status.

(** The status an outcome of the tool leads to. *)
Definition status_of_behaviour (b : proc_behaviour) : Z :=
  match b with
  | SpawnFails _ => 500
  | Hangs => 504
  | Exits rc out err =>
      if (rc =? 0)%Z then
        match decode out with Some _ => 200 | None => 500 end
      else 500
  end%Z.

Section AppStatus.
Variable ucd : UnicodeData.
Variable cfg : Config.
Variable uuid4 : pystr.

Lemma app_status_prompt (op : operation) (p : pystr) (w : World) :
  prompt_of ucd op = Some p ->
  status_code (snd (app ucd cfg uuid4 op w))
  = status_of_behaviour (w (claude_argv p)).
Proof.
  intros P. rewrite (app_prompt ucd cfg uuid4 op p w P). cbn [snd].
  destruct (w (claude_argv p)) as [e| |rc out err] eqn:H.
  - now rewrite (run_claude_spawn_fails cfg p _ w e H).
  - now rewrite (run_claude_hangs cfg p _ w H).
  - unfold status_of_behaviour. destruct (Z.eq_dec rc 0) as [->|Hrc].
    + cbn [Z.eqb]. destruct (decode out) as [text|] eqn:D.
      * now rewrite (run_claude_zero cfg p _ w out err text H D).
      * now rewrite (run_claude_zero_undecodable cfg p _ w out err H D).
    + apply Z.eqb_neq in Hrc as Hb. rewrite Hb.
      destruct (decode err) as [text|] eqn:D.
      * now rewrite (run_claude_nonzero cfg p _ w rc out err text H Hrc D).
      * now rewrite (run_claude_nonzero_undecodable cfg p _ w rc out err H Hrc D).
Qed.

Lemma app_status_no_prompt (op : operation) (w : World) :
  prompt_of ucd op = None ->
  status_code (snd (app ucd cfg uuid4 op w))
  = match op with
    | GetHealth => 200
    | GetVersion => if fits_64_bits (TIMEOUT cfg) then 200 else 500
    | PostAsk _ | PostChat _ => 422
    end%Z.
Proof.
  intros P. rewrite app_endpoint. cbn [snd].
  destruct op as [b|b| |]; unfold prompt_of in P.
  - destruct (validate_body validate_AskRequest b) as [req|errors] eqn:V;
      [discriminate|].
    now rewrite (endpoint_ask_invalid ucd cfg w b errors _ V).
  - destruct (validate_body validate_ChatRequest b) as [req|errors] eqn:V;
      [discriminate|].
    now rewrite (endpoint_chat_invalid ucd cfg w b errors _ V).
  - reflexivity.
  - rewrite endpoint_version. cbn [snd].
    now destruct (fits_64_bits (TIMEOUT cfg)).
Qed.


End AppStatus.

End Status.
Import Status.

(** X4. The status is 504 exactly for the requests whose body validates and
    whose tool is still running at the timeout. *)
Theorem status_504_iff_timeout
    (ucd : UnicodeData) (cfg : Config) (uuid4 : pystr) (op : operation)
    (w : World) :
  status_code (snd (app ucd cfg uuid4 op w)) = 504%Z
  <-> exists p, prompt_of ucd op = Some p /\ w (claude_argv p) = Hangs.
Proof.
  destruct (prompt_of ucd op) as [p|] eqn:P.
  - rewrite (app_status_prompt ucd cfg uuid4 op p w P). split.
    + intros S. exists p. split; [reflexivity|].
      destruct (w (claude_argv p)) as [e| |rc out err]; cbn in S;
        try discriminate; try reflexivity.
      destruct (rc =? 0)%Z; [destruct (decode out)|]; discriminate.
    + intros [p' [[= <-] H]]. now rewrite H.
  - rewrite (app_status_no_prompt ucd cfg uuid4 op w P). split.
    + destruct op; try discriminate.
      destruct (fits_64_bits (TIMEOUT cfg)); discriminate.
    + intros [p [E _]]. discriminate.
Qed.


(** X6. The status is 200 exactly for Health, for Version when the
    configured timeout is an integer of 64 bits (another one cannot be
    rendered, and Version answers 500), and for the requests whose body
    validates and whose tool exits with code zero leaving valid UTF-8 on
    standard output. *)
Theorem status_200_iff_success
    (ucd : UnicodeData) (cfg : Config) (uuid4 : pystr) (op : operation)
    (w : World) :
  status_code (snd (app ucd cfg uuid4 op w)) = 200%Z
  <-> op = GetHealth
      \/ (op = GetVersion
          /\ (-9223372036854775808 <= TIMEOUT cfg <= 18446744073709551615)%Z)
      \/ exists p out err text,
           prompt_of ucd op = Some p
           /\ w (claude_argv p) = Exits 0 out err
           /\ decode out = Some text.
Proof.
  assert (F : fits_64_bits (TIMEOUT cfg) = true
              <-> (-9223372036854775808 <= TIMEOUT cfg
                   <= 18446744073709551615)%Z).
  { unfold fits_64_bits. rewrite andb_true_iff, !Z.leb_le. reflexivity. }
  destruct (prompt_of ucd op) as [p|] eqn:P.
  - rewrite (app_status_prompt ucd cfg uuid4 op p w P). split.
    + intros S. right. right.
      destruct (w (claude_argv p)) as [e| |rc out err] eqn:H; cbn in S;
        try discriminate.
      destruct (Z.eqb_spec rc 0) as [->|]; [|discriminate].
      destruct (decode out) as [text|] eqn:D; [|discriminate].
      exists p, out, err, text. repeat split; assumption.
    + intros [->|[[-> _]|[p' [out [err [text [[= <-] [H D]]]]]]]];
        try discriminate.
      rewrite H. cbn. now rewrite D.
  - rewrite (app_status_no_prompt ucd cfg uuid4 op w P). split.
    + destruct op; try discriminate; auto.
      destruct (fits_64_bits (TIMEOUT cfg)) eqn:E; [|discriminate].
      intros _. right. left. split; [reflexivity | now apply F].
    + intros [->|[[-> R]|[p [out [err [text [E _]]]]]]];
        [reflexivity | | discriminate].
      apply F in R. now rewrite R.
Qed.

(* ================================================================== *)
(** * Chat and Version *)
(* ================================================================== *)

Module ChatExamples.

(** [{"messages": [{"role": "user", "content": "Hi"}], "system": "Be nice"}] *)
Definition be_nice_body : raw_body :=
  Body (JDict [(py "messages",
                JList [JDict [(py "role", JStr (py "user"));
                              (py "content", JStr (py "Hi"))]]);
               (py "system", JStr (py "Be nice"))]).

End ChatExamples.
Import ChatExamples.

(** X7. For every conversation that validates, when the tool, run on the
    assembled prompt, exits with code zero and its standard output is valid
    UTF-8, Chat returns
    [{success: true, message: {role: "assistant", content: r}}] with [r]
    that output decoded and trimmed; the response has status 200 and the
    request-id header. *)
Theorem chat_returns_assistant_message
    (ucd : UnicodeData) (cfg : Config) (uuid4 : pystr) (w : World)
    (b : raw_body) (req : ChatRequest) (out err : bytes) (text : pystr) :
  validate_body validate_ChatRequest b = Valid req ->
  w (claude_argv (chat_prompt ucd req)) = Exits 0 out err ->
  decode out = Some text ->
  (forall request,
     snd (chat ucd cfg req request w)
     = Return (JDict [(py "success", JBool true);
                      (py "message",
                       JDict [(py "role", JStr (py "assistant"));
                              (py "content", JStr (strip text))])]))
  /\ snd (app ucd cfg uuid4 (PostChat b) w)
     = set_header
         (json_response 200
            (JDict [(py "success", JBool true);
                    (py "message",
                     JDict [(py "role", JStr (py "assistant"));
                            (py "content", JStr (strip text))])]))
         (py "X-Request-ID") (request_id_of uuid4).
Proof.
  intros V H D. split.
  - intros request. rewrite chat_run_claude.
    now rewrite (run_claude_zero cfg _ request w out err text H D).
  - assert (P : prompt_of ucd (PostChat b) = Some (chat_prompt ucd req))
      by (unfold prompt_of; now rewrite V).
    rewrite (app_prompt ucd cfg uuid4 _ _ w P).
    now rewrite (run_claude_zero cfg _ _ w out err text H D).
Qed.

Lemma chat_returns_assistant_message_witness :
  snd (app ascii_only default_config uuid0 (PostChat be_nice_body) answering)
  = set_header
      (json_response 200
         (JDict [(py "success", JBool true);
                 (py "message",
                  JDict [(py "role", JStr (py "assistant"));
                         (py "content", JStr (strip (py " hi there " ++ NL)))])]))
      (py "X-Request-ID") (request_id_of uuid0).
Proof.
  exact (proj2
    (chat_returns_assistant_message ascii_only default_config uuid0 answering
       be_nice_body be_nice (b_lit " hi there " ++ [Byte.x0a]) []
       (py " hi there " ++ NL) eq_refl eq_refl eq_refl)).
Defined.

(** X8. Chat is Ask on the assembled prompt: for every conversation, Chat
    does exactly what Ask does for the prompt assembled from it (the same
    log lines, the same subprocess, the same kill), fails with the same
    exception when Ask fails, and when Ask answers [r] it answers [r] as the
    assistant's message. *)
Theorem chat_is_ask_on_assembled_prompt
    (ucd : UnicodeData) (cfg : Config) (req : ChatRequest)
    (request : Request) (w : World) :
  fst (chat ucd cfg req request w)
  = fst (ask cfg {| prompt := chat_prompt ucd req |} request w)
  /\ match snd (ask cfg {| prompt := chat_prompt ucd req |} request w),
           snd (chat ucd cfg req request w) with
     | Return a, Return c =>
         exists r,
           a = JDict [(py "success", JBool true); (py "response", JStr r)]
           /\ c = JDict [(py "success", JBool true);
                         (py "message",
                          JDict [(py "role", JStr (py "assistant"));
                                 (py "content", JStr r)])]
     | Raise e1, Raise e2 => e1 = e2
     | _, _ => False
     end.
Proof.
  rewrite chat_run_claude, ask_run_claude. cbn [prompt fst snd].
  destruct (run_claude cfg (chat_prompt ucd req) request w) as [t [r|e]];
    cbn [fst snd].
  - split; [reflexivity|]. exists r. split; reflexivity.
  - split; reflexivity.
Qed.

(** X9. Version starts no subprocess and does not look at the external
    executable.  When the configured timeout is an integer of 64 bits (from
    -2^63 to 2^64-1) it answers with the version ["1.0.0"], that timeout and
    the CORS flag, status 200 and the request-id header; any other timeout
    cannot be rendered, and the answer is the bare 500 without the
    header. *)
Theorem version_reports_configuration
    (ucd : UnicodeData) (cfg : Config) (uuid4 : pystr) (w : World) :
  ((-9223372036854775808 <= TIMEOUT cfg <= 18446744073709551615)%Z ->
   app ucd cfg uuid4 GetVersion w
   = ([log_request uuid4 GetVersion],
      set_header
        (json_response 200
           (JDict [(py "version", JStr (py "1.0.0"));
                   (py "timeout", JNumber (TIMEOUT cfg));
                   (py "cors_enabled", JBool (ENABLE_CORS cfg))]))
        (py "X-Request-ID") (firstn 8 uuid4)))
  /\ (~ (-9223372036854775808 <= TIMEOUT cfg <= 18446744073709551615)%Z ->
      app ucd cfg uuid4 GetVersion w
      = ([log_request uuid4 GetVersion],
         plain_response 500 (py "Internal Server Error"))
      /\ get_header (snd (app ucd cfg uuid4 GetVersion w)) (py "X-Request-ID")
         = None)
  /\ execs (fst (app ucd cfg uuid4 GetVersion w)) = [].
Proof.
  assert (F : fits_64_bits (TIMEOUT cfg) = true
              <-> (-9223372036854775808 <= TIMEOUT cfg
                   <= 18446744073709551615)%Z).
  { unfold fits_64_bits. rewrite andb_true_iff, !Z.leb_le. reflexivity. }
  rewrite app_endpoint, endpoint_version. cbn [fst snd].
  split; [|split].
  - intros R. apply F in R. now rewrite R.
  - intros R. destruct (fits_64_bits (TIMEOUT cfg)) eqn:E.
    + exfalso. now apply R, F.
    + split; reflexivity.
  - reflexivity.
Qed.

Lemma version_reports_configuration_witness :
  app ascii_only default_config uuid0 GetVersion not_installed
  = ([log_request uuid0 GetVersion],
     set_header
       (json_response 200
          (JDict [(py "version", JStr (py "1.0.0"));
                  (py "timeout", JNumber 120);
                  (py "cors_enabled", JBool false)]))
       (py "X-Request-ID") (firstn 8 uuid0)).
Proof.
  apply (proj1 (version_reports_configuration ascii_only default_config uuid0
                  not_installed)).
  cbn. lia.
Defined.

(* ================================================================== *)
(** * Whitespace-only output *)
(* ================================================================== *)

Module Blank.

Lemma lstrip_nil_iff (s : pystr) : lstrip s = [] <-> all_space s.
Proof.
  split.
  - intros H. destruct (lstrip_split s) as [l [E A]].
    rewrite H, app_nil_r in E. now subst.
  - intros A. induction A as [|c s Hc A IH]; [reflexivity|].
    simpl. now rewrite Hc.
Qed.

Lemma strip_nil_iff (s : pystr) : strip s = [] <-> all_space s.
Proof.
  unfold strip, rstrip. split.
  - intros H. apply lstrip_nil_iff.
    apply (f_equal (@rev codepoint)) in H.
    rewrite rev_involutive in H. cbn [rev] in H.
    apply lstrip_nil_iff in H. apply Forall_rev in H.
    rewrite rev_involutive in H.
    destruct (lstrip s) as [|c u] eqn:E; [reflexivity|].
    apply lstrip_head in E. inversion H; subst. congruence.
  - intros A. apply lstrip_nil_iff in A. now rewrite A.
Qed.

End Blank.
Import Blank.

Module BlankExamples.

(** The tool exits with one and only a newline on standard error. *)
Definition failing_silently : World := fun _ => Exits 1 [] [Byte.x0a].

(** The tool exits with zero and only blanks on standard output. *)
Definition answering_blank : World :=
  fun _ => Exits 0 [Byte.x20; Byte.x0a] [].

End BlankExamples.
Import BlankExamples.

(** X10. On a non-zero exit the generic message "Claude CLI returned
    non-zero exit code" is used not only for an empty standard error but for
    every standard error that is whitespace throughout; any other standard
    error gives its trimmed text, which is then not empty. *)
Theorem blank_stderr_gives_generic_message
    (cfg : Config) (p : pystr) (request : Request) (w : World)
    (rc : Z) (out err : bytes) (text : pystr) :
  w (claude_argv p) = Exits rc out err ->
  rc <> 0%Z ->
  decode err = Some text ->
  (all_space text ->
   snd (run_claude cfg p request w)
   = Raise (HTTPException 500
              (JDict [(py "error", JStr (py "cli_error"));
                      (py "message",
                       JStr (py "Claude CLI returned non-zero exit code"));
                      (py "request_id",
                       JStr (getattr_request_id request (py "unknown")))])))
  /\ (~ all_space text ->
      strip text <> []
      /\ snd (run_claude cfg p request w)
         = Raise (HTTPException 500
                    (JDict [(py "error", JStr (py "cli_error"));
                            (py "message", JStr (strip text));
                            (py "request_id",
                             JStr (getattr_request_id request
                                     (py "unknown")))]))).
Proof.
  intros H Hrc D.
  rewrite (run_claude_nonzero cfg p request w rc out err text H Hrc D).
  cbn [snd]. unfold error_detail, rid_of, cli_error_message, py_or. split.
  - intros A. apply strip_nil_iff in A. now rewrite A.
  - intros A. assert (N : strip text <> [])
      by (intros E; now apply A, strip_nil_iff).
    split; [exact N|]. destruct (strip text); [congruence | reflexivity].
Qed.

Lemma blank_stderr_gives_generic_message_witness :
  snd (run_claude default_config (py "hello") (request_of GetHealth)
         failing_silently)
  = Raise (HTTPException 500
             (JDict [(py "error", JStr (py "cli_error"));
                     (py "message",
                      JStr (py "Claude CLI returned non-zero exit code"));
                     (py "request_id",
                      JStr (getattr_request_id (request_of GetHealth)
                              (py "unknown")))])).
Proof.
  apply (proj1
    (blank_stderr_gives_generic_message default_config (py "hello")
       (request_of GetHealth) failing_silently 1%Z [] [Byte.x0a] NL
       eq_refl ltac:(discriminate) eq_refl)).
  repeat constructor.
Defined.

(** X11. An answer of the tool that is empty or whitespace throughout is no
    error: with exit code zero Ask succeeds, and the response it returns is
    the empty string exactly when the decoded output is whitespace
    throughout. *)
Theorem blank_stdout_gives_empty_response
    (cfg : Config) (req : AskRequest) (request : Request) (w : World)
    (out err : bytes) (text : pystr) :
  w (claude_argv (prompt req)) = Exits 0 out err ->
  decode out = Some text ->
  (exists r,
     snd (ask cfg req request w)
     = Return (JDict [(py "success", JBool true); (py "response", JStr r)])
     /\ (r = [] <-> all_space text)).
Proof.
  intros H D. exists (strip text). split.
  - rewrite ask_run_claude.
    now rewrite (run_claude_zero cfg (prompt req) request w out err text H D).
  - apply strip_nil_iff.
Qed.

Lemma blank_stdout_gives_empty_response_witness :
  exists r,
    snd (ask default_config hello_req (request_of GetHealth) answering_blank)
    = Return (JDict [(py "success", JBool true); (py "response", JStr r)])
    /\ (r = [] <-> all_space [32; 10]).
Proof.
  exact (blank_stdout_gives_empty_response default_config hello_req
           (request_of GetHealth) answering_blank [Byte.x20; Byte.x0a] []
           [32; 10] eq_refl eq_refl).
Defined.

(** X12. Trimming is idempotent: a response, which is a trimmed text, is
    left unchanged by trimming it again. *)
Theorem response_is_fixed_by_strip
    (cfg : Config) (p : pystr) (request : Request) (w : World) (r : pystr) :
  snd (run_claude cfg p request w) = Return r -> strip r = r.
Proof.
  intros H.
  destruct (w (claude_argv p)) as [e| |rc out err] eqn:W.
  - rewrite (run_claude_spawn_fails cfg p request w e W) in H. discriminate.
  - rewrite (run_claude_hangs cfg p request w W) in H. discriminate.
  - destruct (Z.eq_dec rc 0) as [->|Hrc].
    + destruct (decode out) as [text|] eqn:D.
      * rewrite (run_claude_zero cfg p request w out err text W D) in H.
        injection H as <-. apply strip_idempotent.
      * rewrite (run_claude_zero_undecodable cfg p request w out err W D) in H.
        discriminate.
    + destruct (decode err) as [text|] eqn:D.
      * rewrite (run_claude_nonzero cfg p request w rc out err text W Hrc D)
          in H. discriminate.
      * rewrite (run_claude_nonzero_undecodable cfg p request w rc out err
                   W Hrc D) in H. discriminate.
Qed.

Lemma response_is_fixed_by_strip_witness :
  strip (py "hi there") = py "hi there".
Proof.
  exact (response_is_fixed_by_strip default_config (py "hello")
           (request_of GetHealth) answering (py "hi there") eq_refl).
Defined.

(* ================================================================== *)
(** * Decoding loses nothing *)
(* ================================================================== *)

(** X13. Decoding loses nothing: the text decoded from the tool's output
    holds Unicode scalar values only (no surrogate, nothing beyond
    U+10FFFF), encodes back to exactly the bytes the tool wrote, and is the
    decoding of no other byte sequence. *)
Theorem decode_loses_nothing (b : bytes) (s : pystr) :
  decode b = Some s ->
  forallb is_scalar s = true
  /\ encode s = Some b
  /\ (forall b', decode b' = Some s -> b' = b).
Proof.
  intros D. pose proof (encode_decode b s D) as E.
  split; [|split].
  - unfold encode in E. now destruct (forallb is_scalar s).
  - exact E.
  - intros b' D'. apply encode_decode in D'. congruence.
Qed.

Lemma decode_loses_nothing_witness :
  forallb is_scalar [8364] = true
  /\ encode [8364] = Some [Byte.xe2; Byte.x82; Byte.xac]
  /\ (forall b', decode b' = Some [8364] -> b' = [Byte.xe2; Byte.x82; Byte.xac]).
Proof.
  exact (decode_loses_nothing [Byte.xe2; Byte.x82; Byte.xac] [8364] eq_refl).
Defined.

(** X14. When the tool exits with zero having written its prompt argument
    back, UTF-8 encoded, Ask answers with that prompt, trimmed: a prompt of
    Unicode scalar values without a NUL character (which no argument can
    hold) comes back character for character. *)
Theorem ask_echo_round_trip
    (ucd : UnicodeData) (cfg : Config) (uuid4 : pystr) (w : World)
    (b : raw_body) (req : AskRequest) (out err : bytes) :
  validate_body validate_AskRequest b = Valid req ->
  forallb (fun c => negb (c =? 0)) (prompt req) = true ->
  encode (prompt req) = Some out ->
  w (claude_argv (prompt req)) = Exits 0 out err ->
  snd (app ucd cfg uuid4 (PostAsk b) w)
  = set_header
      (json_response 200
         (JDict [(py "success", JBool true);
                 (py "response", JStr (strip (prompt req)))]))
      (py "X-Request-ID") (firstn 8 uuid4).
Proof.
  intros V _ E H.
  assert (P : prompt_of ucd (PostAsk b) = Some (prompt req))
    by (unfold prompt_of; now rewrite V).
  rewrite (app_prompt ucd cfg uuid4 _ _ w P).
  now rewrite (run_claude_zero cfg _ _ w _ _ _ H (decode_encode _ _ E)).
Qed.

Lemma ask_echo_round_trip_witness :
  snd (app ascii_only default_config uuid0 (PostAsk hello_body)
         (fun _ => Exits 0 (b_lit "hello") []))
  = set_header
      (json_response 200
         (JDict [(py "success", JBool true);
                 (py "response", JStr (strip (py "hello")))]))
      (py "X-Request-ID") (firstn 8 uuid0).
Proof.
  exact (ask_echo_round_trip ascii_only default_config uuid0
           (fun _ => Exits 0 (b_lit "hello") []) hello_body hello_req
           (b_lit "hello") [] eq_refl eq_refl eq_refl eq_refl).
Defined.

(* ================================================================== *)
(** * The timeout in the error message *)
(* ================================================================== *)

(** X15. The message of the timeout error tells the configured timeout:
    two configurations whose timeout errors have the same message have the
    same timeout. *)
Theorem timeout_message_tells_timeout
    (cfg1 cfg2 : Config) (p : pystr) (request : Request) (w : World)
    (message : pystr) :
  snd (run_claude cfg1 p request w)
  = Raise (HTTPException 504
             (error_detail (py "timeout") message (rid_of request))) ->
  snd (run_claude cfg2 p request w)
  = Raise (HTTPException 504
             (error_detail (py "timeout") message (rid_of request))) ->
  TIMEOUT cfg1 = TIMEOUT cfg2.
Proof.
  intros H1 H2.
  destruct (w (claude_argv p)) as [e| |rc out err] eqn:W.
  - rewrite (run_claude_spawn_fails cfg1 p request w e W) in H1. discriminate.
  - rewrite (run_claude_hangs cfg1 p request w W) in H1.
    rewrite (run_claude_hangs cfg2 p request w W) in H2.
    cbn [snd] in H1, H2. unfold error_detail in H1, H2.
    injection H1 as E1. injection H2 as E2. rewrite <- E2 in E1.
    now apply timeout_message_inj.
  - destruct (Z.eq_dec rc 0) as [->|Hrc].
    + destruct (decode out) as [text|] eqn:D.
      * rewrite (run_claude_zero cfg1 p request w out err text W D) in H1.
        discriminate.
      * rewrite (run_claude_zero_undecodable cfg1 p request w out err W D)
          in H1. discriminate.
    + destruct (decode err) as [text|] eqn:D.
      * rewrite (run_claude_nonzero cfg1 p request w rc out err text W Hrc D)
          in H1. discriminate.
      * rewrite (run_claude_nonzero_undecodable cfg1 p request w rc out err
                   W Hrc D) in H1. discriminate.
Qed.

Lemma timeout_message_tells_timeout_witness :
  TIMEOUT default_config = TIMEOUT default_config.
Proof.
  exact (timeout_message_tells_timeout default_config default_config
           (py "hello") (request_of GetHealth) sleeping
           (py "Request timed out after 120 seconds") eq_refl eq_refl).
Defined.

(* ================================================================== *)
(** * The shape of the assembled prompt *)
(* ================================================================== *)

(** X16. The assembled prompt is the message lines, in the order of the
    conversation, joined by single newlines; a system instruction puts
    ["System: <system>"] and an empty line before them.  With a system
    instruction and no message the prompt is ["System: <system>\n"], which
    ends with a newline; with neither, it is empty. *)
Theorem chat_prompt_shape (ucd : UnicodeData) (req : ChatRequest) :
  chat_prompt ucd req
  = match system req, messages req with
    | [], ms => join NL (map (message_line ucd) ms)
    | _ :: _, [] => py "System: " ++ system req ++ NL
    | _ :: _, ms =>
        py "System: " ++ system req ++ NL ++ NL
        ++ join NL (map (message_line ucd) ms)
    end.
Proof.
  destruct req as [ms sys]. cbn [system messages].
  destruct sys as [|c sys].
  - apply chat_prompt_without_system.
  - destruct ms as [|m ms].
    + reflexivity.
    + now apply chat_prompt_with_system.
Qed.

(** X17. An empty conversation is not rejected: a Chat body whose
    [messages] is the empty list and which has no [system] validates, the
    assembled prompt is the empty string, and the tool is started with it,
    once. *)
Theorem empty_conversation_runs_tool
    (ucd : UnicodeData) (cfg : Config) (uuid4 : pystr) (w : World)
    (members : list (pystr * json)) :
  dict_get (py "messages") members = Some (JList []) ->
  dict_get (py "system") members = None ->
  validate_body validate_ChatRequest (Body (JDict members))
  = Valid {| messages := []; system := [] |}
  /\ execs (fst (app ucd cfg uuid4 (PostChat (Body (JDict members))) w))
     = [[py "claude"; py "-p"; []]].
Proof.
  intros Hm Hs.
  assert (V : validate_body validate_ChatRequest (Body (JDict members))
              = Valid {| messages := []; system := [] |}).
  { cbn [validate_body validate_ChatRequest].
    unfold required, with_default. now rewrite Hm, Hs. }
  split; [exact V|].
  assert (P : prompt_of ucd (PostChat (Body (JDict members))) = Some [])
    by (unfold prompt_of; now rewrite V).
  rewrite (app_trace_prompt ucd cfg uuid4 _ _ w P).
  cbn [execs log_request log_running]. now rewrite execs_after_start.
Qed.

Lemma empty_conversation_runs_tool_witness :
  validate_body validate_ChatRequest
    (Body (JDict [(py "messages", JList [])]))
  = Valid {| messages := []; system := [] |}
  /\ execs (fst (app ascii_only default_config uuid0
                   (PostChat (Body (JDict [(py "messages", JList [])])))
                   answering))
     = [[py "claude"; py "-p"; []]].
Proof.
  exact (empty_conversation_runs_tool ascii_only default_config uuid0
           answering [(py "messages", JList [])] eq_refl eq_refl).
Defined.

(** X18. The assembled prompt does not tell where a message ends: a single
    user message whose content holds a newline followed by ["User: "] is
    assembled exactly like the two user messages it imitates. *)
Theorem chat_prompt_does_not_delimit_messages
    (ucd : UnicodeData) (a b : pystr) :
  chat_prompt ucd
    {| messages := [{| role := py "user";
                       content := a ++ NL ++ py "User: " ++ b |}];
       system := [] |}
  = chat_prompt ucd
      {| messages := [{| role := py "user"; content := a |};
                      {| role := py "user"; content := b |}];
         system := [] |}.
Proof.
  rewrite !chat_prompt_without_system. cbn [map join].
  unfold message_line. cbn [role content].
  rewrite (capitalize_ascii ucd 117 (py "ser") eq_refl
           : capitalize ucd (py "user") = py "User").
  rewrite <- !app_assoc. reflexivity.
Qed.

Module RoleCase.

Lemma upper_of_equal_lower (c d : codepoint) :
  ascii_lower c = ascii_lower d -> ascii_upper c = ascii_upper d.
Proof.
  unfold ascii_lower, ascii_upper.
  decide_ranges; cbn [andb]; intros; lia.
Qed.

End RoleCase.
Import RoleCase.

(** X19. The letter case of an ASCII role does not reach the prompt: two
    ASCII roles that differ only in letter case, such as ["USER"], ["user"]
    and ["User"], give the same line. *)
Theorem role_case_is_cosmetic
    (ucd : UnicodeData) (r1 r2 c : pystr) :
  forallb is_ascii r1 = true ->
  forallb is_ascii r2 = true ->
  map ascii_lower r1 = map ascii_lower r2 ->
  message_line ucd {| role := r1; content := c |}
  = message_line ucd {| role := r2; content := c |}.
Proof.
  intros A1 A2 E. unfold message_line. cbn [role content]. f_equal.
  destruct r1 as [|c1 r1], r2 as [|c2 r2]; try discriminate; [reflexivity|].
  rewrite (capitalize_ascii ucd c1 r1 A1), (capitalize_ascii ucd c2 r2 A2).
  cbn [map] in E. injection E as Eh Et.
  now rewrite (upper_of_equal_lower c1 c2 Eh), Et.
Qed.

Lemma role_case_is_cosmetic_witness :
  message_line ascii_only {| role := py "USER"; content := py "Hi" |}
  = message_line ascii_only {| role := py "user"; content := py "Hi" |}.
Proof.
  exact (role_case_is_cosmetic ascii_only (py "USER") (py "user") (py "Hi")
           eq_refl eq_refl eq_refl).
Defined.

(* ================================================================== *)
(** * What is accepted *)
(* ================================================================== *)

Module Accepted.

(** The message a well-formed message object stands for: its [content], and
    its [role] or, without one, ["user"]. *)
Definition reads_as (v : json) (m : Message) : Prop :=
  exists members,
    v = JDict members
    /\ dict_get (py "content") members = Some (JStr (content m))
    /\ (dict_get (py "role") members = Some (JStr (role m))
        \/ (dict_get (py "role") members = None /\ role m = py "user")).

Lemma validate_str_valid (at_ : list loc_item) (v : json) (s : pystr) :
  validate_str at_ v = Valid s <-> v = JStr s.
Proof.
  destruct v; simpl; split; intros H; try discriminate; congruence.
Qed.

Lemma vmap_valid {A B} (f : A -> B) (r : vresult A) (b : B) :
  vmap f r = Valid b <-> exists a, r = Valid a /\ b = f a.
Proof.
  destruct r as [a|e]; simpl; split.
  - intros [= <-]. now exists a.
  - intros [a' [[= <-] ->]]. reflexivity.
  - discriminate.
  - intros [a' [E _]]. discriminate.
Qed.

Lemma both_valid {A B} (ra : vresult A) (rb : vresult B) (a : A) (b : B) :
  both ra rb = Valid (a, b) <-> ra = Valid a /\ rb = Valid b.
Proof.
  destruct ra, rb; simpl; split; try discriminate;
    try (intros [E1 E2]; discriminate).
  - intros [= <- <-]. auto.
  - intros [[= <-] [= <-]]. reflexivity.
Qed.

Lemma validate_Message_valid (at_ : list loc_item) (v : json) (m : Message) :
  validate_Message at_ v = Valid m <-> reads_as v m.
Proof.
  unfold reads_as. destruct m as [r c]. cbn [role content]. split.
  - destruct v; try discriminate. unfold validate_Message.
    intros H. apply vmap_valid in H as [[r' c'] [H [= -> ->]]].
    apply both_valid in H as [Hr Hc].
    exists members. split; [reflexivity|].
    unfold required in Hc. unfold with_default in Hr.
    destruct (dict_get (py "content") members) as [vc|]; [|discriminate].
    apply validate_str_valid in Hc as ->. split; [reflexivity|].
    destruct (dict_get (py "role") members) as [vr|].
    + apply validate_str_valid in Hr as ->. now left.
    + injection Hr as <-. now right.
  - intros [members [-> [Hc Hr]]]. unfold validate_Message, required, with_default.
    rewrite Hc. destruct Hr as [Hr|[Hr ->]]; rewrite Hr; reflexivity.
Qed.

Lemma validate_items_valid (at_ : list loc_item) (i : nat) (items : list json)
    (ms : list Message) :
  validate_items at_ i items = Valid ms <-> Forall2 reads_as items ms.
Proof.
  revert i ms. induction items as [|v items IH]; intros i ms; cbn [validate_items].
  - split.
    + intros [= <-]. constructor.
    + intros F. inversion F. reflexivity.
  - split.
    + intros H. apply vmap_valid in H as [[m ms'] [H ->]].
      apply both_valid in H as [Hm Hms]. cbn [fst snd].
      constructor; [now apply validate_Message_valid in Hm | now apply IH in Hms].
    + intros F. inversion F as [|v' m items' ms' Hm Hms]; subst.
      apply vmap_valid. exists (m, ms'). split; [|reflexivity].
      apply both_valid. split.
      * now apply validate_Message_valid.
      * now apply IH.
Qed.

End Accepted.
Import Accepted.

(** X20. Ask accepts exactly the bodies that are JSON objects whose [prompt]
    member is a string, whatever other members they have, and the prompt it
    runs is that string as it is: nothing is trimmed, and the empty prompt is
    accepted too. *)
Theorem ask_accepts_iff_prompt_is_string (b : raw_body) (req : AskRequest) :
  validate_body validate_AskRequest b = Valid req
  <-> exists members,
        b = Body (JDict members)
        /\ dict_get (py "prompt") members = Some (JStr (prompt req)).
Proof.
  destruct req as [p]. cbn [prompt]. split.
  - destruct b as [| |v]; try discriminate.
    destruct v; try discriminate.
    cbn [validate_body validate_AskRequest]. unfold required.
    intros H. apply vmap_valid in H as [p' [H [= ->]]].
    exists members. split; [reflexivity|].
    destruct (dict_get (py "prompt") members) as [v|]; [|discriminate].
    now apply validate_str_valid in H as ->.
  - intros [members [-> H]].
    cbn [validate_body validate_AskRequest]. unfold required.
    now rewrite H.
Qed.

(** X21. Chat accepts exactly the bodies that are JSON objects whose
    [messages] member is a list of well-formed message objects and whose
    [system] member, if present, is a string.  The conversation it works
    with has one message per object, in the same order, each with the
    object's content and its role or else ["user"]; the system instruction
    is the [system] member or else empty. *)
Theorem chat_accepts_iff_well_formed (b : raw_body) (req : ChatRequest) :
  validate_body validate_ChatRequest b = Valid req
  <-> exists members items,
        b = Body (JDict members)
        /\ dict_get (py "messages") members = Some (JList items)
        /\ Forall2 reads_as items (messages req)
        /\ (dict_get (py "system") members = Some (JStr (system req))
            \/ (dict_get (py "system") members = None /\ system req = [])).
Proof.
  destruct req as [ms sys]. cbn [messages system]. split.
  - destruct b as [| |v]; try discriminate.
    destruct v; try discriminate.
    cbn [validate_body validate_ChatRequest]. unfold required, with_default.
    intros H. apply vmap_valid in H as [[ms' sys'] [H [= -> ->]]].
    apply both_valid in H as [Hm Hs].
    destruct (dict_get (py "messages") members) as [vm|] eqn:Em;
      [|discriminate].
    destruct vm; try discriminate. cbn [validate_messages] in Hm.
    apply validate_items_valid in Hm.
    exists members, items.
    split; [reflexivity|]. split; [exact Em|]. split; [exact Hm|].
    destruct (dict_get (py "system") members) as [vs|].
    + apply validate_str_valid in Hs as ->. now left.
    + injection Hs as <-. now right.
  - intros [members [items [-> [Hm [F Hs]]]]].
    cbn [validate_body validate_ChatRequest]. unfold required, with_default.
    rewrite Hm. cbn [validate_messages].
    rewrite (proj2 (validate_items_valid _ 0 _ _) F).
    destruct Hs as [Hs|[Hs ->]]; rewrite Hs; reflexivity.
Qed.



(* ================================================================== *)
(** * The middleware on its own *)
(* ================================================================== *)

Module Headers.

Lemma get_item_filter_other (k k' : pystr) (hs : list (pystr * pystr)) :
  k' <> k ->
  get_item k' (filter (fun kv => negb (PyStr.eqb (fst kv) k)) hs)
  = get_item k' hs.
Proof.
  intros N. induction hs as [|[k0 v0] hs IH]; [reflexivity|].
  cbn [filter fst get_item].
  destruct (PyStr.eqb k0 k) eqn:E; cbn [negb get_item].
  - apply eqb_eq in E as ->.
    destruct (PyStr.eqb k k') eqn:E'; [|exact IH].
    apply eqb_eq in E'. congruence.
  - now rewrite IH.
Qed.

Lemma get_item_set_item_other (k k' v : pystr) (hs : list (pystr * pystr)) :
  k' <> k -> get_item k' (set_item k v hs) = get_item k' hs.
Proof.
  intros N. induction hs as [|[k0 v0] hs IH]; cbn [set_item get_item].
  - destruct (PyStr.eqb k k') eqn:E; [|reflexivity].
    apply eqb_eq in E. congruence.
  - destruct (PyStr.eqb k0 k) eqn:E; cbn [get_item].
    + apply eqb_eq in E as ->.
      destruct (PyStr.eqb k k') eqn:E'.
      * apply eqb_eq in E'. congruence.
      * now apply get_item_filter_other.
    + now rewrite IH.
Qed.

End Headers.
Import Headers.

(** X23. [add_request_id] passes the request on with the first eight
    characters of the UUID in its state, logs one line before, and, when a
    response comes back, changes nothing of it but the [X-Request-ID]
    header, which it sets to that identifier: status, body and every other
    header stay.  When the inner application raises, the exception passes
    through and no header is set on anything. *)
Theorem add_request_id_only_sets_its_header
    (uuid4 : pystr) (request : Request)
    (call_next : Request -> M Response) (w : World) :
  match call_next (set_state_request_id request (firstn 8 uuid4)) w with
  | (t, Return r) =>
      exists line r',
        add_request_id uuid4 request call_next w
        = (Log DEBUG line :: t, Return r')
        /\ status_code r' = status_code r
        /\ body r' = body r
        /\ get_header r' (py "X-Request-ID") = Some (firstn 8 uuid4)
        /\ (forall k,
              header_name k <> header_name (py "X-Request-ID") ->
              get_header r' k = get_header r k)
  | (t, Raise e) =>
      exists line,
        add_request_id uuid4 request call_next w
        = (Log DEBUG line :: t, Raise e)
  end.
Proof.
  unfold add_request_id, bind, log, emit, ret.
  destruct (call_next (set_state_request_id request (firstn 8 uuid4)) w)
    as [t [r|e]]; cbn [List.app].
  - eexists. eexists. split; [rewrite app_nil_r; reflexivity|].
    split; [reflexivity|]. split; [reflexivity|].
    split; [apply get_set_header|].
    intros k N. unfold get_header, set_header. cbn [headers].
    now apply get_item_set_item_other.
  - eexists. reflexivity.
Qed.

(* ================================================================== *)
(** * The configuration read from the environment *)
(* ================================================================== *)

Module Settings.

(** [os.environ], as far as [os.getenv] reads it. *)
Definition Environ := pystr -> option pystr.

(** [os.getenv(name, default)] *)
Definition getenv (environ : Environ) (name default : pystr) : pystr :=
  match environ name with
  | Some v => v
  | None => default
  end.

(** [str.lower()]: [lower_ucs4] at every index. *)
Definition lower (ucd : UnicodeData) (s : pystr) : pystr :=
  lower_from ucd s 0 s.

(** [ENABLE_CORS = os.getenv("CLAUDE_API_CORS", "false").lower() == "true"] *)
Definition load_ENABLE_CORS (ucd : UnicodeData) (environ : Environ) : bool :=
  PyStr.eqb (lower ucd (getenv environ (py "CLAUDE_API_CORS") (py "false")))
            (py "true").

End Settings.
Import Settings.

(** X24. CORS is switched on exactly by the value "true" of
    [CLAUDE_API_CORS], in any letter case and with nothing around it: an
    unset variable leaves it off, and so does every other ASCII value
    (the empty string, ["1"], ["yes"], ["true"] with a blank). *)
Theorem cors_enabled_iff_true (ucd : UnicodeData) (environ : Environ) :
  (environ (py "CLAUDE_API_CORS") = None ->
   load_ENABLE_CORS ucd environ = false)
  /\ (forall v,
        environ (py "CLAUDE_API_CORS") = Some v ->
        forallb is_ascii v = true ->
        (load_ENABLE_CORS ucd environ = true
         <-> map ascii_lower v = py "true")).
Proof.
  unfold load_ENABLE_CORS, getenv, lower. split.
  - intros ->. reflexivity.
  - intros v -> A. rewrite (lower_from_ascii ucd v 0 v A). apply eqb_eq.
Qed.
